(** * stim: caffeine tracker (src/stim/stim.py)

    A shallow embedding of the decay model, the dose store with undo and
    redo, the cache, the time-series generator and the planner, followed by
    the properties of the specification that were checked against it.

    Numbers are Python floats, that is IEEE 754 binary64 values, modelled by
    Rocq's primitive floats: [+], [-], [*], [/] and the comparisons are the
    hardware operations, rounding to nearest, ties to even.  Three things
    Python adds on top are written out in [PyFloat]: truthiness, [round]
    with a number of digits, and [int]. *)

From Stdlib Require Import ZArith List Bool String Floats Lia Permutation Sorted.
Import ListNotations.

(* Decimal literals stand for the nearest binary64 value, as in Python. *)
Set Warnings "-inexact-float".

(** ** Python's float operations *)

Module PyFloat.

Local Open Scope float_scope.

(** [bool(x)] for a float: every value except [0.0] and [-0.0] is true
    (NaN included). *)
Definition truthy (x : float) : bool := negb (x =? 0).

(** The integer nearest to [n / d] for [d > 0], ties going to the even one. *)
Definition round_half_even (n d : Z) : Z :=
  let q := (n / d)%Z in
  match (2 * (n mod d) ?= d)%Z with
  | Lt => q
  | Gt => (q + 1)%Z
  | Eq => if Z.even q then q else (q + 1)%Z
  end.

(** [round(x, ndigits)] for a float [x] and [ndigits >= 0].  CPython prints
    the exact binary value of [x] correctly rounded to [ndigits] decimals
    ([_Py_dg_dtoa], mode 3, half to even) and reads the decimal back
    ([_Py_dg_strtod], correctly rounded).  NaN and the infinities round to
    themselves; a float with a non-negative exponent is an integer and
    rounds to itself. *)
Definition round (x : float) (ndigits : nat) : float :=
  match Prim2SF x with
  | S754_finite s m (Zneg k) =>
      let p := (10 ^ Z.of_nat ndigits)%Z in
      match round_half_even (Zpos m * p) (2 ^ Zpos k) with
      | Zpos n =>
          SF2Prim (SFdiv prec emax (S754_finite s n 0)
                                   (S754_finite false (Z.to_pos p) 0))
      | _ => SF2Prim (S754_zero s)
      end
  | _ => x
  end.

(** Errors of the built-ins used by the tracker. *)
Inductive conv_error := NaNToInt | InfToInt.

(** [int(x)]: truncation towards zero; NaN raises [ValueError], an infinity
    raises [OverflowError]. *)
Definition to_int (x : float) : conv_error + Z :=
  match Prim2SF x with
  | S754_zero _ => inr 0%Z
  | S754_finite s m e =>
      let a := Z.shiftl (Zpos m) e in inr (if s then (- a)%Z else a)
  | S754_infinity _ => inl InfToInt
  | S754_nan => inl NaNToInt
  end.

(** [float(n)] for an integer, correctly rounded. *)
Definition of_int (n : Z) : float :=
  SF2Prim (binary_normalize prec emax n 0 false).

End PyFloat.

(** ** Data model *)

(** A dose is a JSON object of the store file.  [load_data] allows for old
    files whose doses carry no ['id'], so the identifier is optional. *)
Record dose := mkDose {
  dose_id   : option Z;
  timestamp : float;
  amount    : float;
  datetime  : string
}.

(** The dictionary [load_data] returns and [save_data] writes. *)
Record data := mkData {
  doses        : list dose;
  undone_doses : list dose;
  next_id      : Z
}.

(** What [json.load] finds in the store file: ['undone_doses'] and
    ['next_id'] may be missing. *)
Record stored := mkStored {
  st_doses        : list dose;
  st_undone_doses : option (list dose);
  st_next_id      : option Z
}.

(** The cache file. *)
Record cache := mkCache {
  cache_timestamp : float;
  cache_level     : float;
  cache_datetime  : string
}.

(** One entry of [show_history]. *)
Record history_entry := mkEntry {
  h_timestamp : float;
  h_datetime  : string;
  h_amount    : float;
  h_hours_ago : float;
  h_remaining : float
}.

(** One sample of [generate_timeseries]. *)
Record point := mkPoint {
  p_timestamp : float;
  p_datetime  : string;
  p_level     : float
}.

(** Lines written to standard output, by what they report. *)
Inductive output :=
| WarnLargeRange (num_points : Z)
| NoDosesToUndo
| NoDosesToRedo
| LastDoses (shown : list (string * float))
| RemovedDose (amt : float) (dt : string)
| RestoredDose (amt : float) (dt : string)
| CurrentLevel (level : float).

(** Exceptions.  The two [ValueError]s of [add_dose] are what the
    specification calls [InvalidAmount].  [TimestampError] stands for what
    [datetime.fromtimestamp] raises for a time it cannot convert: a
    [ValueError] for NaN or a year outside 1..9999, an [OverflowError] for
    an infinity or a time beyond the platform's [time_t], an [OSError]
    where the platform's [localtime] refuses. *)
Inductive exn :=
| AmountNotPositive       (* ValueError("Dose amount must be greater than 0") *)
| AmountTooLarge          (* ValueError("Amount must be less than 1000! ...") *)
| ZeroDivisionError
| IntOfNaN                (* ValueError from int(nan) *)
| IntOfInfinity           (* OverflowError from int(inf) *)
| TimestampError          (* datetime.fromtimestamp(t) for a t out of range *)
| PowOverflow.            (* OverflowError from 0.5 ** w *)

Definition InvalidAmount (e : exn) : Prop :=
  e = AmountNotPositive \/ e = AmountTooLarge.

(** The files under [~/.stim], the number of clock readings taken so far and
    the output printed so far.  A file holds the value [json.dump] was given:
    serialization is taken to be lossless.  The directory itself, which the
    module creates when it is imported, is always there. *)
Record world := mkWorld {
  data_file       : option stored;
  cache_file      : option cache;
  timeseries_file : option (list point);
  ticks           : nat;
  stdout          : list output
}.

(** ** A state and exception monad for the effects *)

Inductive result (A : Type) :=
| Ok (a : A)
| Raise (e : exn).
Arguments Ok {A} a.
Arguments Raise {A} e.

Definition M (A : Type) : Type := world -> result A * world.

Definition ret {A} (a : A) : M A := fun w => (Ok a, w).

Definition bind {A B} (c : M A) (k : A -> M B) : M B :=
  fun w => match c w with
           | (Ok a, w') => k a w'
           | (Raise e, w') => (Raise e, w')
           end.

Definition raise {A} (e : exn) : M A := fun w => (Raise e, w).

(** [try: c except Exception: h] *)
Definition try_except {A} (c h : M A) : M A :=
  fun w => match c w with
           | (Ok a, w') => (Ok a, w')
           | (Raise _, w') => h w'
           end.

Declare Scope stim_scope.
Delimit Scope stim_scope with stim.
Notation "x <- c1 ;; c2" := (bind c1 (fun x => c2))
  (at level 61, c1 at next level, right associativity) : stim_scope.
Notation "c1 ;; c2" := (bind c1 (fun _ => c2))
  (at level 61, right associativity) : stim_scope.

Definition print (o : output) : M unit :=
  fun w => (Ok tt, mkWorld (data_file w) (cache_file w) (timeseries_file w)
                           (ticks w) (stdout w ++ [o])).

Definition write_data_file (d : stored) : M unit :=
  fun w => (Ok tt, mkWorld (Some d) (cache_file w) (timeseries_file w)
                           (ticks w) (stdout w)).

Definition write_cache_file (c : cache) : M unit :=
  fun w => (Ok tt, mkWorld (data_file w) (Some c) (timeseries_file w)
                           (ticks w) (stdout w)).

(** [if CACHE_FILE.exists(): CACHE_FILE.unlink()] *)
Definition unlink_cache_file : M unit :=
  fun w => (Ok tt, mkWorld (data_file w) None (timeseries_file w)
                           (ticks w) (stdout w)).

Definition write_timeseries_file (ts : list point) : M unit :=
  fun w => (Ok tt, mkWorld (data_file w) (cache_file w) (Some ts)
                           (ticks w) (stdout w)).

(** [HALF_LIFE_HOURS = 6] *)
Definition HALF_LIFE_HOURS : float := 6%float.

(** Python's list slice [l[-n:]]: a negative start counts from the end and
    is clamped at the front; [-0] is [0], so [l[-0:]] is all of [l]. *)
Definition slice_from_neg {A} (l : list A) (n : Z) : list A :=
  let len := Z.of_nat (List.length l) in
  let start := (- n)%Z in
  let start := if (start <? 0)%Z then Z.max (start + len) 0
               else Z.min start len in
  skipn (Z.to_nat start) l.

(** A [for] loop that appends one result per element and stops at the
    first exception. *)
Fixpoint for_each {A B} (f : A -> M B) (l : list A) : M (list B) :=
  match l with
  | [] => ret []
  | x :: l' => (y <- f x ;; ys <- for_each f l' ;; ret (y :: ys))%stim
  end.

(** [sorted(l, key=key)] for keys that are numbers.  Python's sort is
    stable and only ever asks [<] of two keys; when no key is NaN, [<] is a
    strict weak order and there is one stable arrangement, which is the one
    computed here: an element goes in front of the first one that is not
    below it, so equal keys keep their input order.  With a NaN among the
    keys [<] is no order at all, and what [list.sort] returns then depends
    on which pairs its merge strategy happens to compare, which differs
    from one CPython version to the next; that case is outside this
    definition, and every statement below about the order of a sorted list
    assumes that no timestamp is NaN ([timestamps_ordered]). *)
Section Sorted.
Variable A : Type.
Variable key : A -> float.

Fixpoint insert (x : A) (l : list A) : list A :=
  match l with
  | [] => [x]
  | y :: l' => if (key y <? key x)%float then y :: insert x l' else x :: l
  end.

Definition sorted (l : list A) : list A := fold_right insert [] l.
End Sorted.
Arguments insert {A} key x l.
Arguments sorted {A} key l.

(** [a] sorts strictly before [b]. *)
Definition below {A} (key : A -> float) (a b : A) : Prop :=
  (key a <? key b)%float = true.

(** No element of the list sorts strictly before an earlier one. *)
Definition ascending {A} (key : A -> float) (l : list A) : Prop :=
  StronglySorted (fun a b => (key b <? key a)%float = false) l.

(** Two elements whose keys [<] tells apart, one way or the other. *)
Definition comparable {A} (key : A -> float) (a b : A) : Prop :=
  ((key a <? key b) || (key b <? key a))%float = true.

(** [min(xs)] of a non-empty sequence: the first least element by [<]. *)
Definition py_min (x : float) (xs : list float) : float :=
  fold_left (fun m y => if (y <? m)%float then y else m) xs x.

Section Stim.

Local Open Scope float_scope.
Local Open Scope stim_scope.

(** The environment: the C library's [pow]; the clock ([clock n] is what
    the [n]-th call of [time.time()] returns, a time of the present, which
    [datetime.fromtimestamp] converts); and the local calendar, which
    depends on the platform and the time zone and is left uninterpreted:
    [in_range t] says whether the finite time [t] lies within the years
    [datetime.fromtimestamp] can express, and [strftime t] is
    [datetime.fromtimestamp(t).strftime('%d/%m/%Y %H:%M:%S')] when it
    does. *)
Variable libm_pow : float -> float -> float.
Variable clock : nat -> float.
Variable strftime : float -> string.
Variable in_range : float -> bool.

(** The times [datetime.fromtimestamp] converts: NaN and the infinities
    are refused on every platform. *)
Definition fromtimestamp_ok (t : float) : bool :=
  negb (is_nan t) && negb (is_infinity t) && in_range t.

(** [datetime.fromtimestamp(t).strftime('%d/%m/%Y %H:%M:%S')] for a time
    [t] computed by the program. *)
Definition format_time (t : float) : M string :=
  if fromtimestamp_ok t then ret (strftime t) else raise TimestampError.

(** The double [0.5 ** w] computes.  [float_pow] settles the special
    exponents itself before it calls the C library: anything to the power
    zero is one, a NaN exponent gives NaN, and for a base below one [+inf]
    gives zero and [-inf] gives infinity. *)
Definition pow_half (w : float) : float :=
  if w =? 0 then 1
  else if is_nan w then w
  else if is_infinity w then (if 0 <? w then 0 else infinity)
  else libm_pow 0.5 w.

(** Whether [0.5 ** w] raises [OverflowError] instead of returning
    [pow_half w]: [float_pow] does so when the C library's result for a
    finite exponent is infinite, which for the base [0.5] takes an exponent
    below about -1023.  (A result that underflows to zero is returned as
    zero.) *)
Definition pow_overflows (w : float) : bool :=
  negb (w =? 0) && negb (is_nan w) && negb (is_infinity w)
  && is_infinity (libm_pow 0.5 w).

(** [0.5 ** w] where the exponent may be negative. *)
Definition float_pow_half (w : float) : M float :=
  if pow_overflows w then raise PowOverflow else ret (pow_half w).

(** [time.time()] *)
Definition time_time : M float :=
  fun w => (Ok (clock (ticks w)),
            mkWorld (data_file w) (cache_file w) (timeseries_file w)
                    (S (ticks w)) (stdout w)).

(** The loop of [load_data] that numbers the doses of a file without
    ['next_id']. *)
Fixpoint assign_ids (next : Z) (ds : list dose) : list dose * Z :=
  match ds with
  | [] => ([], next)
  | d :: ds' =>
      match dose_id d with
      | Some _ => let (r, n) := assign_ids next ds' in (d :: r, n)
      | None =>
          let (r, n) := assign_ids (next + 1) ds' in
          (mkDose (Some next) (timestamp d) (amount d) (datetime d) :: r, n)
      end
  end.

Definition load_data : M data :=
  fun w =>
    match data_file w with
    | None => (Ok (mkData [] [] 1), w)
    | Some f =>
        let undone := match st_undone_doses f with
                      | Some u => u
                      | None => []
                      end in
        match st_next_id f with
        | Some n => (Ok (mkData (st_doses f) undone n), w)
        | None =>
            let (ds, n) := assign_ids 1 (st_doses f) in
            (Ok (mkData ds undone n), w)
        end
    end.

Definition save_data (d : data) : M unit :=
  write_data_file (mkStored (doses d) (Some (undone_doses d)) (Some (next_id d))).

(** What one dose contributes at [current_time].  Only doses with
    [timestamp <= current_time] are weighed, so the exponent is never
    negative, the power is at most one and [0.5 ** w] has no overflow to
    report: its value is [pow_half]. *)
Definition remaining (current_time : float) (d : dose) : float :=
  let hours_passed := (current_time - timestamp d) / 3600 in
  amount d * pow_half (hours_passed / HALF_LIFE_HOURS).

(** The doses [calculate_current_level] adds up, in the order it adds them. *)
Definition valid_doses (ds : list dose) (current_time : float) : list dose :=
  filter (fun d => timestamp d <=? current_time) (sorted timestamp ds).

(** The body of [calculate_current_level] once [current_time] is known. *)
Definition level_at (ds : list dose) (current_time : float) : float :=
  let total :=
    fold_left (fun total d => total + remaining current_time d)
              (valid_doses ds current_time) 0 in
  PyFloat.round total 2.

(** [specific_time or time.time()]: the clock is read when no time was
    given, and also when the time given is zero. *)
Definition or_now (specific_time : option float) : M float :=
  match specific_time with
  | Some t => if PyFloat.truthy t then ret t else time_time
  | None => time_time
  end.

Definition calculate_current_level (ds : list dose)
    (specific_time : option float) : M float :=
  current_time <- or_now specific_time ;;
  ret (level_at ds current_time).

(** The time formatted here is the clock's own reading. *)
Definition cache_current_level : M cache :=
  d <- load_data ;;
  current_time <- time_time ;;
  current_level <- calculate_current_level (doses d) None ;;
  let c := mkCache current_time current_level (strftime current_time) in
  write_cache_file c ;;
  ret c.

Definition get_cached_level : M cache :=
  try_except cache_current_level cache_current_level.

(** [add_dose].  The dose dictionary is built, and its date formatted,
    before [next_id] is raised and anything is written: a timestamp that
    [datetime.fromtimestamp] refuses ends the call with the store as it
    was. *)
Definition add_dose (amt minutes_offset : float) : M float :=
  if amt <=? 0 then raise AmountNotPositive
  else if 1000 <? amt then raise AmountTooLarge
  else
    d <- load_data ;;
    t1 <- time_time ;;
    let ts := t1 - abs (minutes_offset * 60) in
    t2 <- time_time ;;
    ts <- (if t2 <? ts then time_time else ret ts) ;;
    dt <- format_time ts ;;
    let new := mkDose (Some (next_id d)) ts amt dt in
    let d' := mkData (doses d ++ [new]) (undone_doses d) (next_id d + 1) in
    save_data d' ;;
    unlink_cache_file ;;
    calculate_current_level (doses d') None.

(** [hours_ago] in the loop of [show_history]. *)
Definition hours_ago (now : float) (d : dose) : float :=
  PyFloat.round ((now - timestamp d) / 3600) 1.

(** The body of the loop of [show_history].  A dose stamped after [now]
    has a negative [hours_ago], and far enough after it the power
    overflows. *)
Definition history_of (now : float) (d : dose) : M history_entry :=
  let h := hours_ago now d in
  p <- float_pow_half (h / HALF_LIFE_HOURS) ;;
  let rem := amount d * p in
  ret (mkEntry (timestamp d) (datetime d) (amount d) h (PyFloat.round rem 2)).

Definition show_history (limit : Z) : M (list history_entry) :=
  d <- load_data ;;
  match doses d with
  | [] => ret []
  | _ =>
      now <- time_time ;;
      for_each (history_of now)
               (slice_from_neg (sorted timestamp (doses d)) limit)
  end.

Definition undo_last : M (option dose) :=
  d <- load_data ;;
  match doses d with
  | [] => ret None
  | _ =>
      let removed := last (doses d) (mkDose None 0 0 EmptyString) in
      save_data (mkData (removelast (doses d)) (undone_doses d) (next_id d)) ;;
      ret (Some removed)
  end.

Definition clean_old_doses : M unit :=
  d <- load_data ;;
  current_time <- time_time ;;
  let kept := filter (fun x => (current_time - timestamp x) / 3600
                                 <? HALF_LIFE_HOURS * 10) (doses d) in
  save_data (mkData kept (undone_doses d) (next_id d)).

(** The loop of [generate_timeseries] over [range(num_points)], from [i]. *)
Fixpoint sample (ds : list dose) (start_time : float) (interval_seconds : Z)
    (i : Z) (n : nat) : M (list point) :=
  match n with
  | O => ret []
  | S n' =>
      let point_time :=
        start_time + PyFloat.of_int (i * interval_seconds) in
      level <- calculate_current_level ds (Some point_time) ;;
      dt <- format_time point_time ;;
      rest <- sample ds start_time interval_seconds (i + 1) n' ;;
      ret (mkPoint point_time dt level :: rest)
  end.

(** [generate_timeseries]; the interval is an integer number of minutes, as
    in every call of the program. *)
Definition generate_timeseries (start_time end_time : option float)
    (interval_minutes : Z) : M (list point) :=
  d <- load_data ;;
  current_time <- time_time ;;
  let end_time := match end_time with
                  | Some e => if PyFloat.truthy e then e else current_time
                  | None => current_time
                  end in
  let start_time :=
    match start_time with
    | Some s => if PyFloat.truthy s then Some s else None
    | None => None
    end in
  let start_time :=
    match start_time with
    | Some s => s
    | None =>
        match doses d with
        | x :: xs => py_min (timestamp x) (map timestamp xs)
        | [] => end_time - 24 * 3600
        end
    end in
  let interval_seconds := (interval_minutes * 60)%Z in
  if (interval_seconds =? 0)%Z then raise ZeroDivisionError
  else
    match PyFloat.to_int ((end_time - start_time)
                          / PyFloat.of_int interval_seconds) with
    | inl PyFloat.NaNToInt => raise IntOfNaN
    | inl PyFloat.InfToInt => raise IntOfInfinity
    | inr q =>
        let num_points := (q + 1)%Z in
        (if (10000 <? num_points)%Z then print (WarnLargeRange num_points)
         else ret tt) ;;
        sample (doses d) start_time interval_seconds 0 (Z.to_nat num_points)
    end.

Definition update_timeseries : M (list point) :=
  ts <- generate_timeseries None None 15 ;;
  write_timeseries_file ts ;;
  ret ts.

(** The lines [for dose in data['doses'][-5:]: print(...)]. *)
Definition last_five (ds : list dose) : M unit :=
  match ds with
  | [] => ret tt
  | _ => print (LastDoses (map (fun x => (datetime x, amount x))
                               (slice_from_neg ds 5)))
  end.

Definition handle_redo : M unit :=
  d <- load_data ;;
  match undone_doses d with
  | [] => print NoDosesToRedo
  | _ =>
      let last_undone := last (undone_doses d) (mkDose None 0 0 EmptyString) in
      let d' := mkData (doses d ++ [last_undone])
                       (removelast (undone_doses d)) (next_id d) in
      save_data d' ;;
      unlink_cache_file ;;
      last_five (doses d') ;;
      print (RestoredDose (amount last_undone) (datetime last_undone)) ;;
      current <- calculate_current_level (doses d') None ;;
      print (CurrentLevel current)
  end.

Definition handle_undo : M unit :=
  d <- load_data ;;
  match doses d with
  | [] => print NoDosesToUndo
  | _ =>
      let removed := last (doses d) (mkDose None 0 0 EmptyString) in
      let d' := mkData (removelast (doses d))
                       (undone_doses d ++ [removed]) (next_id d) in
      save_data d' ;;
      unlink_cache_file ;;
      last_five (doses d') ;;
      print (RemovedDose (amount removed) (datetime removed)) ;;
      current <- calculate_current_level (doses d') None ;;
      print (CurrentLevel current)
  end.

End Stim.

(** The dictionary [load_data] hands to an operation started in [w]. *)
Definition loaded (w : world) : data :=
  match fst (load_data w) with
  | Ok d => d
  | Raise _ => mkData [] [] 1
  end.

(** The world after [k] calls of [handle_undo], and after [k] calls of
    [handle_redo]. *)
Definition undo_times (libm_pow : float -> float -> float)
    (clock : nat -> float) (k : nat) (w : world) : world :=
  Nat.iter k (fun w => snd (handle_undo libm_pow clock w)) w.

Definition redo_times (libm_pow : float -> float -> float)
    (clock : nat -> float) (k : nat) (w : world) : world :=
  Nat.iter k (fun w => snd (handle_redo libm_pow clock w)) w.

(** The timestamp [add_dose] gives a dose entered in [w] with the offset
    [minutes_offset], and the number of clock readings that takes. *)
Definition dose_time (clock : nat -> float) (w : world)
    (minutes_offset : float) : float * nat :=
  let shifted := (clock (ticks w) - abs (minutes_offset * 60))%float in
  if (clock (S (ticks w)) <? shifted)%float
  then (clock (S (S (ticks w))), 3%nat)
  else (shifted, 2%nat).

(** The entry [show_history] makes for a dose when the power does not
    overflow: the hours since the dose rounded to one decimal, and
    [amount * 0.5 ** (hours_ago / 6)] rounded to two. *)
Definition entry_of (libm_pow : float -> float -> float) (now : float)
    (d : dose) : history_entry :=
  let h := PyFloat.round ((now - timestamp d) / 3600)%float 1 in
  mkEntry (timestamp d) (datetime d) (amount d) h
          (PyFloat.round (amount d * pow_half libm_pow (h / 6))%float 2).

(** The files and the output are the same in two worlds. *)
Definition same_files (w w' : world) : Prop :=
  data_file w' = data_file w /\ cache_file w' = cache_file w /\
  timeseries_file w' = timeseries_file w /\ stdout w' = stdout w.

(** The level as the specification words it: the doses with [timestamp <= t]
    in the order given, each weighing [amount * 0.5 ** ((t - timestamp) /
    (6 * 3600))], summed and rounded to two decimals. *)
Definition spec_current_level (libm_pow : float -> float -> float)
    (ds : list dose) (t : float) : float :=
  let weigh d :=
    (amount d * pow_half libm_pow ((t - timestamp d) / (6 * 3600)))%float in
  PyFloat.round
    (fold_left add
       (map weigh (filter (fun d => (timestamp d <=? t)%float) ds)) 0%float)
    2.

(** ** An environment for the examples

    A clock that starts at 1700000000 and advances one second per reading;
    a calendar that reaches from the first second of the year 1 to the last
    of the year 9999 (in UTC) and a formatter that prints nothing; and a
    stand-in for the C library's [pow] at base [0.5]: two to the power of
    minus the whole part of the exponent, times the exponential series of
    the rest.  It is exact at whole exponents and accurate to the last
    digits elsewhere, and past the largest double it gives infinity. *)
Definition ex_clock (n : nat) : float :=
  PyFloat.of_int (1700000000 + Z.of_nat n).

Definition ex_strftime (t : float) : string := EmptyString.

Definition ex_in_range (t : float) : bool :=
  ((-62135596800 <=? t) && (t <=? 253402300799))%float.

Fixpoint exp_series (x : float) (k : nat) (acc : float) : float :=
  match k with
  | O => acc
  | S k' => exp_series x k' (1 + x * acc / PyFloat.of_int (Z.of_nat k))%float
  end.

Definition ex_pow (v w : float) : float :=
  match PyFloat.to_int w with
  | inr n =>
      let f := (w - PyFloat.of_int n)%float in
      Z.ldexp (exp_series (- f * 0x1.62e42fefa39efp-1)%float 30 1) (- n)
  | inl _ => nan
  end.

Definition ex_dose (i : Z) (ts amt : float) : dose :=
  mkDose (Some i) ts amt EmptyString.

Definition ex_world (ds undone : list dose) (next : Z) (c : option cache)
    : world :=
  mkWorld (Some (mkStored ds (Some undone) (Some next))) c None 0 [].

(** The world of a first run: no file exists yet. *)
Definition fresh_world : world := mkWorld None None None 0 [].

(** Doses taken six hours, three hours and eleven days before the clock of
    the examples starts, and a cache entry left by an earlier read. *)
Definition morning : dose := ex_dose 1 1699978400 100.
Definition noon : dose := ex_dose 2 1699989200 80.
Definition stale : dose := ex_dose 1 1699000000 100.
Definition old_cache : cache := mkCache 1699999000 42 EmptyString.

(** ** The planner *)

(** What [check_future_dose] returns: the formatted time of the dose that
    is tried out, the level without and with it, and the time and level at
    the next 18:00, 22:00 and 08:00. *)
Record projection := mkProjection {
  proj_time          : string;
  proj_level         : float;
  proj_added_level   : float;
  proj_evening_time  : string;
  proj_evening_level : float;
  proj_night_time    : string;
  proj_night_level   : float;
  proj_morning_time  : string;
  proj_morning_level : float
}.

(** A reading of [datetime.now()]: the local calendar day, as a day number,
    and the microseconds since that day's midnight. *)
Record local_time := mkLocal {
  local_day    : Z;
  local_micros : Z
}.

Section Planner.

Local Open Scope float_scope.
Local Open Scope stim_scope.

Variable libm_pow : float -> float -> float.
Variable clock : nat -> float.

(** The wall clock and the calendar of the local time zone.
    [datetime.now()] is read apart from [time.time()]: [local_now n] is its
    [n]-th reading.  [local_timestamp day hour minute] is
    [datetime.timestamp()] of the local time [hour]:[minute]:00 on the day
    [day].  [in_range] is as for the store, and [strftime_minutes t] is
    [datetime.fromtimestamp(t).strftime('%d/%m/%Y %H:%M')].  All four are
    left uninterpreted. *)
Variable local_now : nat -> local_time.
Variable local_timestamp : Z -> Z -> Z -> float.
Variable in_range : float -> bool.
Variable strftime_minutes : float -> string.

(** [get_next_time(hour, minute)] when its [datetime.now()] is the [n]-th
    reading: today at that hour and minute, or tomorrow if today's is not
    after now. *)
Definition get_next_time (n : nat) (hour minute : Z) : float :=
  let now := local_now n in
  let target := ((hour * 3600 + minute * 60) * 1000000)%Z in
  if (target <=? local_micros now)%Z
  then local_timestamp (local_day now + 1) hour minute
  else local_timestamp (local_day now) hour minute.

Definition format_minutes (t : float) : M string :=
  if fromtimestamp_ok in_range t then ret (strftime_minutes t)
  else raise TimestampError.

(** [check_future_dose], called when [datetime.now()] has been read [n]
    times.  The dose tried out is a dictionary with a timestamp and an
    amount only; the two keys it lacks are never read.  The dictionary
    returned is built in the order it is written: the time of the dose is
    formatted first, then the level with the dose is computed, then the
    three reference times are formatted. *)
Definition check_future_dose (n : nat) (amt minutes_offset : float)
    : M projection :=
  d <- load_data ;;
  t <- time_time clock ;;
  let ts := t - abs (minutes_offset * 60) in
  current_level <- calculate_current_level libm_pow clock (doses d) None ;;
  let temp_dose := mkDose None ts amt EmptyString in
  let test_doses := doses d ++ [temp_dose] in
  let next_evening := get_next_time n 18 0 in
  let next_night := get_next_time (S n) 22 0 in
  let next_morning := get_next_time (S (S n)) 8 0 in
  evening_level <-
    calculate_current_level libm_pow clock test_doses (Some next_evening) ;;
  night_level <-
    calculate_current_level libm_pow clock test_doses (Some next_night) ;;
  morning_level <-
    calculate_current_level libm_pow clock test_doses (Some next_morning) ;;
  time <- format_minutes ts ;;
  added_level <- calculate_current_level libm_pow clock test_doses None ;;
  evening_time <- format_minutes next_evening ;;
  night_time <- format_minutes next_night ;;
  morning_time <- format_minutes next_morning ;;
  ret (mkProjection time current_level added_level
         evening_time evening_level
         night_time night_level
         morning_time morning_level).

End Planner.

(** A calendar for the examples, in UTC: the clock of the examples starts
    on day 19675 since 1970-01-01, at 22:13:20. *)
Definition ex_local_now (n : nat) : local_time :=
  let t := (1700000000 + Z.of_nat n)%Z in
  mkLocal (t / 86400) ((t mod 86400) * 1000000).

Definition ex_local_timestamp (day hour minute : Z) : float :=
  PyFloat.of_int (day * 86400 + hour * 3600 + minute * 60).

(** ** Invariants of the store *)

(** Every id in the store, among the doses and the undone doses, is below
    [next_id]. *)
Definition ids_below (d : data) : Prop :=
  Forall (fun x => match dose_id x with
                   | Some i => (i < next_id d)%Z
                   | None => True
                   end)
         (doses d ++ undone_doses d).

(** A dose of an old store file, without an ['id']. *)
Definition lacks_id (d : dose) : bool :=
  match dose_id d with
  | None => true
  | Some _ => false
  end.

(** No timestamp is NaN. *)
Definition timestamps_ordered (ds : list dose) : Prop :=
  Forall (fun x => is_nan (timestamp x) = false) ds.

(** A store file from before ids were kept: two doses without an id
    around one that has the id 7, and neither undone doses nor a next id. *)
Definition legacy_file : stored :=
  mkStored [mkDose None 1699978400 100 EmptyString;
            mkDose (Some 7%Z) 1699989200 80 EmptyString;
            mkDose None 1699996400 40 EmptyString]
           None None.

Definition legacy_world : world :=
  mkWorld (Some legacy_file) None None 0 [].

(** A dose whose amount is not a number, and one taken after the clock of
    the examples has started. *)
Definition nan_dose : dose := ex_dose 2 1699989200 nan.
Definition later : dose := ex_dose 3 1700005000 50.

(** ** The order of floats *)

Section FloatOrder.

Local Open Scope float_scope.

Lemma SFcompare_antisym (x y : spec_float) :
  SFcompare y x = option_map CompOpp (SFcompare x y).
Proof.
  destruct x as [sx|sx| |sx mx ex], y as [sy|sy| |sy my ey]; simpl;
    try destruct sx; try destruct sy; simpl; try reflexivity.
  all: rewrite (Z.compare_antisym ey ex);
    destruct (ey ?= ex)%Z; simpl; try reflexivity;
    pose proof (Pos.compare_cont_antisym mx my Eq) as H; simpl in H;
    rewrite <- H; reflexivity.
Qed.

Lemma ltb_asym (x y : float) : (x <? y) = true -> (y <? x) = false.
Proof.
  rewrite !ltb_spec. unfold SFltb. rewrite (SFcompare_antisym (Prim2SF x)).
  destruct (SFcompare (Prim2SF x) (Prim2SF y)) as [[]|]; simpl; congruence.
Qed.

Lemma ltb_not_leb (x y : float) : (x <? y) = true -> (y <=? x) = false.
Proof.
  rewrite ltb_spec, leb_spec. unfold SFltb, SFleb.
  rewrite (SFcompare_antisym (Prim2SF x)).
  destruct (SFcompare (Prim2SF x) (Prim2SF y)) as [[]|]; simpl; congruence.
Qed.

Lemma leb_not_ltb (x y : float) : (x <=? y) = true -> (y <? x) = false.
Proof.
  rewrite ltb_spec, leb_spec. unfold SFltb, SFleb.
  rewrite (SFcompare_antisym (Prim2SF x)).
  destruct (SFcompare (Prim2SF x) (Prim2SF y)) as [[]|]; simpl; congruence.
Qed.

Lemma SFltb_trans (x y z : spec_float) :
  SFltb x y = true -> SFltb y z = true -> SFltb x z = true.
Proof.
  unfold SFltb.
  destruct x as [sx|sx| |sx mx ex], y as [sy|sy| |sy my ey],
           z as [sz|sz| |sz mz ez]; simpl;
    try destruct sx; try destruct sy; try destruct sz; simpl;
    try congruence.
  - destruct (Z.compare_spec ex ey), (Z.compare_spec ey ez),
      (Z.compare_spec ex ez); subst; try lia; try congruence.
    rewrite !Pos.compare_cont_spec; simpl.
    destruct (Pos.compare_spec mx my), (Pos.compare_spec my mz),
      (Pos.compare_spec mx mz); subst; simpl; try lia; congruence.
  - destruct (Z.compare_spec ex ey), (Z.compare_spec ey ez),
      (Z.compare_spec ex ez); subst; try lia; try congruence.
    rewrite !Pos.compare_cont_spec; simpl.
    destruct (Pos.compare_spec mx my), (Pos.compare_spec my mz),
      (Pos.compare_spec mx mz); subst; simpl; try lia; congruence.
Qed.

Lemma ltb_trans (x y z : float) :
  (x <? y) = true -> (y <? z) = true -> (x <? z) = true.
Proof. rewrite !ltb_spec. apply SFltb_trans. Qed.

End FloatOrder.

(** ** The stable sort on keys that [<] orders strictly *)

Section SortFacts.

Variable A : Type.
Variable key : A -> float.

Local Open Scope float_scope.

Lemma comparable_sym a b : comparable key a b -> comparable key b a.
Proof. unfold comparable. now rewrite orb_comm. Qed.

Lemma insert_perm x l : Permutation (insert key x l) (x :: l).
Proof.
  induction l as [|y l IH]; simpl; [reflexivity|].
  destruct (key y <? key x); [|reflexivity].
  rewrite IH. apply perm_swap.
Qed.

Lemma sorted_perm l : Permutation (sorted key l) l.
Proof.
  induction l as [|x l IH]; simpl; [reflexivity|].
  rewrite insert_perm. now constructor.
Qed.

Lemma insert_strict x l :
  StronglySorted (below key) l -> Forall (comparable key x) l ->
  StronglySorted (below key) (insert key x l).
Proof.
  induction 1 as [|y l Hs IH Hy]; intros Hc; simpl.
  - repeat constructor.
  - inversion Hc as [|? ? Hxy Hxl]; subst.
    destruct (key y <? key x) eqn:E.
    + constructor; [now apply IH|].
      eapply Permutation_Forall; [symmetry; apply insert_perm|].
      now constructor.
    + assert (Hb : below key x y).
      { unfold comparable in Hxy. rewrite E, orb_false_r in Hxy. exact Hxy. }
      constructor; [now constructor|].
      constructor; [exact Hb|].
      eapply Forall_impl; [|exact Hy].
      intros z Hz. exact (ltb_trans _ _ _ Hb Hz).
Qed.

Lemma sorted_strict l :
  ForallOrdPairs (comparable key) l -> StronglySorted (below key) (sorted key l).
Proof.
  induction 1 as [|x l Hx Hl IH]; simpl; [constructor|].
  apply insert_strict; [exact IH|].
  eapply Permutation_Forall; [symmetry; apply sorted_perm|exact Hx].
Qed.

Lemma strict_perm_eq l1 : forall l2,
  StronglySorted (below key) l1 -> StronglySorted (below key) l2 ->
  Permutation l1 l2 -> l1 = l2.
Proof.
  induction l1 as [|a l1 IH]; intros l2 S1 S2 P.
  - now apply Permutation_nil in P.
  - destruct l2 as [|b l2]; [now apply Permutation_sym, Permutation_nil in P|].
    inversion S1 as [|? ? S1' F1]; inversion S2 as [|? ? S2' F2]; subst.
    assert (a = b) as ->.
    { assert (Ia : In a (b :: l2))
        by (eapply Permutation_in; [exact P|now left]).
      assert (Ib : In b (a :: l1))
        by (eapply Permutation_in; [symmetry; exact P|now left]).
      destruct Ia as [->|Ia]; [reflexivity|].
      destruct Ib as [->|Ib]; [reflexivity|].
      rewrite Forall_forall in F1, F2.
      pose proof (F1 _ Ib) as H1. pose proof (F2 _ Ia) as H2.
      unfold below in H1, H2. apply ltb_asym in H1. congruence. }
    f_equal. apply IH; auto. eapply Permutation_cons_inv; exact P.
Qed.

Lemma comparable_perm l l' :
  Permutation l l' ->
  ForallOrdPairs (comparable key) l -> ForallOrdPairs (comparable key) l'.
Proof.
  induction 1 as [|x l l' P IH|x y l|l l' l'' P1 IH1 P2 IH2]; intros H.
  - constructor.
  - inversion H; subst. constructor; [|now apply IH].
    eapply Permutation_Forall; eauto.
  - inversion H as [|? ? Hy Hl]; subst.
    inversion Hy as [|? ? Hyx Hyl]; subst.
    inversion Hl as [|? ? Hx Hl']; subst.
    constructor; [constructor; [now apply comparable_sym|exact Hx]|].
    constructor; assumption.
  - auto.
Qed.

(** With pairwise comparable keys the sorted list does not depend on the
    order of the input. *)
Lemma sorted_perm_eq l l' :
  Permutation l l' -> ForallOrdPairs (comparable key) l ->
  sorted key l = sorted key l'.
Proof.
  intros P H. apply strict_perm_eq.
  - now apply sorted_strict.
  - apply sorted_strict. eapply comparable_perm; eauto.
  - rewrite !sorted_perm. exact P.
Qed.

End SortFacts.

(** ** More on floats: signs, NaN and the order *)

Local Open Scope float_scope.

Lemma SFabs_round_aux p e s m ex l :
  SFabs (binary_round_aux p e s m ex l)
  = SFabs (binary_round_aux p e false m ex l).
Proof.
  unfold binary_round_aux.
  destruct (shr_fexp p e m ex l) as [mrs' e'].
  destruct (shr_fexp p e _ e' loc_Exact) as [mrs'' e''].
  destruct (shr_m mrs''); try reflexivity.
  destruct (e'' <=? e - p)%Z; reflexivity.
Qed.

Lemma SFabs_mul_opp p e x y :
  SFabs (SFmul p e (SFopp x) y) = SFabs (SFmul p e x y).
Proof.
  destruct x as [sx|sx| |sx mx ex], y as [sy|sy| |sy my ey]; simpl;
    try reflexivity.
  rewrite SFabs_round_aux. symmetry. rewrite SFabs_round_aux. reflexivity.
Qed.

(** The size of a product does not depend on the sign of a factor. *)
Lemma abs_mul_opp (x y : float) : abs (- x * y) = abs (x * y).
Proof.
  apply Prim2SF_inj. rewrite !abs_spec, !mul_spec, opp_spec.
  apply SFabs_mul_opp.
Qed.

Lemma is_nan_spec (x : float) : is_nan x = true -> Prim2SF x = S754_nan.
Proof.
  unfold is_nan. rewrite eqb_spec. unfold SFeqb.
  destruct (Prim2SF x) as [s|s| |s m e]; simpl; try reflexivity.
  - discriminate.
  - destruct s; discriminate.
  - destruct s; rewrite Z.compare_refl, Pos.compare_cont_refl; simpl;
      discriminate.
Qed.

Lemma spec_nan_is_nan (x : float) : Prim2SF x = S754_nan -> is_nan x = true.
Proof. unfold is_nan. rewrite eqb_spec. intros ->. reflexivity. Qed.

Lemma not_nan_spec (x : float) : is_nan x = false -> Prim2SF x <> S754_nan.
Proof.
  intros H E. rewrite (spec_nan_is_nan _ E) in H. discriminate.
Qed.

Lemma nan_leb (x y : float) : is_nan x = true -> (x <=? y) = false.
Proof. intros H. rewrite leb_spec, (is_nan_spec _ H). reflexivity. Qed.

Lemma nan_ltb_r (x y : float) : is_nan y = true -> (x <? y) = false.
Proof.
  intros H. rewrite ltb_spec, (is_nan_spec _ H).
  unfold SFltb. destruct (Prim2SF x); reflexivity.
Qed.

Lemma nan_mul_l (x y : float) : is_nan x = true -> is_nan (x * y) = true.
Proof.
  intros H. apply spec_nan_is_nan. rewrite mul_spec, (is_nan_spec _ H).
  reflexivity.
Qed.

Lemma nan_add_l (x y : float) : is_nan x = true -> is_nan (x + y) = true.
Proof.
  intros H. apply spec_nan_is_nan. rewrite add_spec, (is_nan_spec _ H).
  reflexivity.
Qed.

Lemma nan_add_r (x y : float) : is_nan y = true -> is_nan (x + y) = true.
Proof.
  intros H. apply spec_nan_is_nan. rewrite add_spec, (is_nan_spec _ H).
  unfold SF64add, SFadd. destruct (Prim2SF x); reflexivity.
Qed.

Lemma nan_round (x : float) n : is_nan x = true -> PyFloat.round x n = x.
Proof. intros H. unfold PyFloat.round. now rewrite (is_nan_spec _ H). Qed.

Lemma SFltb_neg_trans (x y z : spec_float) :
  y <> S754_nan -> SFltb x z = true -> SFltb x y = true \/ SFltb y z = true.
Proof.
  unfold SFltb. intros Hy.
  destruct x as [sx|sx| |sx mx ex], y as [sy|sy| |sy my ey],
           z as [sz|sz| |sz mz ez]; simpl;
    try destruct sx; try destruct sy; try destruct sz; simpl;
    try congruence; auto.
  all: destruct (Z.compare_spec ex ez), (Z.compare_spec ex ey),
      (Z.compare_spec ey ez); subst; try lia; auto; try congruence;
    rewrite !Pos.compare_cont_spec; simpl;
    destruct (Pos.compare_spec mx mz), (Pos.compare_spec mx my),
      (Pos.compare_spec my mz); subst; simpl; try lia; auto; congruence.
Qed.

(** Of three floats, the middle one a number: what is not below it and what
    it is not below are not below one another. *)
Lemma ltb_neg_trans (x y z : float) :
  is_nan y = false -> (x <? y) = false -> (y <? z) = false ->
  (x <? z) = false.
Proof.
  intros Hy Hxy Hyz. destruct (x <? z) eqn:E; [|reflexivity].
  rewrite ltb_spec in *.
  destruct (SFltb_neg_trans _ (Prim2SF y) _ (not_nan_spec _ Hy) E);
    congruence.
Qed.

(** ** The stable sort and the filter *)

Section SortFilter.

Variable A : Type.
Variable key : A -> float.
Variable keep : A -> bool.

Local Open Scope float_scope.

Lemma filter_insert_dropped x l :
  keep x = false -> filter keep (insert key x l) = filter keep l.
Proof.
  intros Hx. induction l as [|y l IH]; simpl.
  - now rewrite Hx.
  - destruct (key y <? key x); simpl.
    + now rewrite IH.
    + now rewrite Hx.
Qed.

Lemma insert_ascending x l :
  Forall (fun y => is_nan (key y) = false) l ->
  ascending key l -> ascending key (insert key x l).
Proof.
  intros Hn Hs. induction Hs as [|y l Hs IH Hy]; simpl.
  - repeat constructor.
  - inversion Hn as [|? ? Hny Hnl]; subst.
    destruct (key y <? key x) eqn:E.
    + constructor; [now apply IH|].
      eapply Permutation_Forall; [symmetry; apply insert_perm|].
      constructor; [now apply ltb_asym|exact Hy].
    + constructor; [now constructor|].
      constructor; [exact E|].
      rewrite Forall_forall in *. intros z Hz.
      exact (ltb_neg_trans _ _ _ Hny (Hy z Hz) E).
Qed.

Lemma sorted_ascending l :
  Forall (fun y => is_nan (key y) = false) l -> ascending key (sorted key l).
Proof.
  induction 1 as [|x l Hx Hl IH]; simpl; [constructor|].
  apply insert_ascending; [|exact IH].
  eapply Permutation_Forall; [symmetry; apply sorted_perm|exact Hl].
Qed.

Lemma filter_insert_kept x l :
  Forall (fun y => is_nan (key y) = false) l -> ascending key l ->
  keep x = true ->
  filter keep (insert key x l) = insert key x (filter keep l).
Proof.
  intros Hn Hs Hx. induction Hs as [|y l Hs IH Hy]; simpl.
  - now rewrite Hx.
  - inversion Hn as [|? ? Hny Hnl]; subst.
    destruct (key y <? key x) eqn:E; simpl.
    + destruct (keep y); simpl; rewrite ?E, IH; auto.
    + rewrite Hx. destruct (keep y); simpl; [now rewrite E|].
      assert (F : Forall (fun z => (key z <? key x) = false)
                         (filter keep l)).
      { rewrite Forall_forall in *. intros z Hz.
        apply filter_In in Hz. destruct Hz as [Hz _].
        exact (ltb_neg_trans _ _ _ Hny (Hy z Hz) E). }
      destruct (filter keep l) as [|z l'] eqn:F'; [reflexivity|].
      simpl. inversion F as [|? ? Fz _]; subst. now rewrite Fz.
Qed.

(** Sorting and then filtering is filtering and then sorting. *)
Lemma filter_sorted l :
  Forall (fun y => is_nan (key y) = false) l ->
  filter keep (sorted key l) = sorted key (filter keep l).
Proof.
  induction 1 as [|x l Hx Hl IH]; simpl; [reflexivity|].
  assert (Hs : Forall (fun y => is_nan (key y) = false) (sorted key l)).
  { eapply Permutation_Forall; [symmetry; apply sorted_perm|exact Hl]. }
  destruct (keep x) eqn:K; simpl.
  - rewrite filter_insert_kept; auto using sorted_ascending. now rewrite IH.
  - rewrite filter_insert_dropped; auto.
Qed.

End SortFilter.

(** ** Equal keys, and the least of a sequence *)

Section SortStable.

Variable A : Type.
Variable key : A -> float.

Local Open Scope float_scope.

Lemma SFeqb_not_ltb (x y k : spec_float) :
  SFeqb x k = true -> SFeqb y k = true -> SFltb y x = false.
Proof.
  unfold SFeqb, SFltb.
  destruct x as [sx|sx| |sx mx ex], y as [sy|sy| |sy my ey],
           k as [sk|sk| |sk mk ek]; simpl;
    try destruct sx; try destruct sy; try destruct sk; simpl;
    try congruence.
  all: destruct (Z.compare_spec ex ek), (Z.compare_spec ey ek),
      (Z.compare_spec ey ex); subst; try lia; try congruence;
    rewrite !Pos.compare_cont_spec; simpl;
    destruct (Pos.compare_spec mx mk), (Pos.compare_spec my mk),
      (Pos.compare_spec my mx); subst; simpl; try lia; congruence.
Qed.

(** Two floats equal to a third are not below one another. *)
Lemma eqb_not_ltb (x y k : float) :
  (x =? k) = true -> (y =? k) = true -> (y <? x) = false.
Proof. rewrite !eqb_spec, ltb_spec. apply SFeqb_not_ltb. Qed.

(** A list that is in ascending order already is left as it is. *)
Lemma sorted_id l : ascending key l -> sorted key l = l.
Proof.
  induction 1 as [|x l Hs IH Hx]; simpl; [reflexivity|].
  rewrite IH. destruct l as [|y l']; [reflexivity|].
  simpl. inversion Hx as [|? ? Hy _]; subst. now rewrite Hy.
Qed.

Lemma equal_keys_ascending k l :
  Forall (fun a => (key a =? k) = true) l -> ascending key l.
Proof.
  induction 1 as [|x l Hx Hl IH]; constructor; [exact IH|].
  eapply Forall_impl; [|exact Hl].
  intros y Hy. cbv beta. exact (eqb_not_ltb _ _ _ Hx Hy).
Qed.

Lemma Forall_filter (P : A -> Prop) (f : A -> bool) l :
  Forall P l -> Forall P (filter f l).
Proof. intros H. eapply incl_Forall; [apply incl_filter|exact H]. Qed.

Lemma filter_all (f : A -> bool) l :
  Forall (fun a => f a = true) (filter f l).
Proof.
  apply Forall_forall. intros x Hx. apply filter_In in Hx. now destruct Hx.
Qed.

(** The sort is stable: the elements of one key come out in the order
    they went in. *)
Lemma sorted_stable k l :
  Forall (fun a => is_nan (key a) = false) l ->
  filter (fun a => key a =? k) (sorted key l)
  = filter (fun a => key a =? k) l.
Proof.
  intros H. rewrite (filter_sorted A key (fun a => key a =? k) l H).
  apply sorted_id, (equal_keys_ascending k), filter_all.
Qed.

Lemma ascending_filter (f : A -> bool) l :
  ascending key l -> ascending key (filter f l).
Proof.
  induction 1 as [|x l Hs IH Hx]; simpl; [constructor|].
  destruct (f x); [|exact IH].
  constructor; [exact IH|]. now apply Forall_filter.
Qed.

End SortStable.

Section Least.

Local Open Scope float_scope.

Lemma py_min_nan xs : forall m, is_nan m = true -> py_min m xs = m.
Proof.
  unfold py_min.
  induction xs as [|y xs IH]; intros m H; simpl; [reflexivity|].
  rewrite (nan_ltb_r y m H). now apply IH.
Qed.

(** [min] returns a least element: nothing in the sequence is below it. *)
Lemma py_min_least xs : forall m,
  (m <? py_min m xs) = false /\
  Forall (fun y => (y <? py_min m xs) = false) xs.
Proof.
  induction xs as [|y xs IH]; intros m.
  - split; [|constructor]. unfold py_min. simpl.
    destruct (m <? m) eqn:E; [|reflexivity].
    pose proof (ltb_asym _ _ E). congruence.
  - change (py_min m (y :: xs))
      with (py_min (if y <? m then y else m) xs).
    destruct (IH (if y <? m then y else m)) as [H1 H2].
    destruct (y <? m) eqn:E.
    + split; [|constructor; assumption].
      destruct (m <? py_min y xs) eqn:E2; [|reflexivity].
      pose proof (ltb_trans _ _ _ E E2). congruence.
    + split; [exact H1|]. constructor; [|exact H2].
      destruct (is_nan m) eqn:N.
      * rewrite (py_min_nan xs m N). now apply nan_ltb_r.
      * exact (ltb_neg_trans _ _ _ N E H1).
Qed.

(** [min] returns an element of the sequence. *)
Lemma py_min_in xs : forall m, In (py_min m xs) (m :: xs).
Proof.
  induction xs as [|y xs IH]; intros m; [now left|].
  change (py_min m (y :: xs))
    with (py_min (if y <? m then y else m) xs).
  destruct (IH (if y <? m then y else m)) as [H|H].
  - destruct (y <? m); rewrite <- H; [right; now left|now left].
  - right. now right.
Qed.

End Least.

(** ** Running the monad *)

Ltac run :=
  unfold handle_undo, handle_redo, add_dose, cache_current_level,
    get_cached_level, show_history, undo_last, clean_old_doses,
    calculate_current_level, or_now, save_data, last_five, format_time,
    try_except, bind, ret, raise, print, write_data_file, write_cache_file,
    unlink_cache_file, time_time in *; simpl in *.

Lemma load_data_loaded (w : world) : load_data w = (Ok (loaded w), w).
Proof.
  unfold loaded, load_data.
  destruct (data_file w) as [f|]; [|reflexivity].
  destruct (st_next_id f); [reflexivity|].
  destruct (assign_ids 1 (st_doses f)); reflexivity.
Qed.

Section StimFacts.

Local Open Scope float_scope.

Variable libm_pow : float -> float -> float.
Variable clock : nat -> float.
Variable strftime : float -> string.
Variable in_range : float -> bool.

(** What [add_dose] does once the amount has passed both checks: it
    stores the dose if the date of its timestamp can be formed, and
    otherwise raises with every file as it was. *)
Lemma add_dose_accepted (amt off : float) (w : world) :
  (amt <=? 0) = false -> (1000 <? amt) = false ->
  let d := loaded w in
  let (ts, k) := dose_time clock w off in
  let ds := doses d ++ [mkDose (Some (next_id d)) ts amt (strftime ts)] in
  add_dose libm_pow clock strftime in_range amt off w =
    if fromtimestamp_ok in_range ts
    then (Ok (level_at libm_pow ds (clock (ticks w + k))),
          mkWorld (Some (mkStored ds (Some (undone_doses d))
                                  (Some (next_id d + 1)%Z)))
                  None (timeseries_file w) (S (ticks w + k)) (stdout w))
    else (Raise TimestampError,
          mkWorld (data_file w) (cache_file w) (timeseries_file w)
                  (ticks w + k) (stdout w)).
Proof.
  intros H0 H1. unfold add_dose, dose_time. rewrite H0, H1.
  unfold bind at 1. rewrite load_data_loaded.
  unfold bind at 1, time_time at 1. unfold bind at 1, time_time at 1.
  cbn [ticks data_file cache_file timeseries_file stdout].
  destruct (clock (S (ticks w)) <? clock (ticks w) - abs (off * 60)).
  - unfold bind at 1, time_time at 1.
    cbn [ticks data_file cache_file timeseries_file stdout].
    unfold bind at 1, format_time.
    destruct (fromtimestamp_ok in_range (clock (S (S (ticks w))))).
    + run. repeat f_equal; lia.
    + unfold raise. repeat f_equal; lia.
  - unfold bind at 1, ret at 1. unfold bind at 1, format_time.
    destruct (fromtimestamp_ok in_range (clock (ticks w) - abs (off * 60))).
    + run. repeat f_equal; lia.
    + unfold raise. repeat f_equal; lia.
Qed.

(** An amount that has passed both checks does not raise an amount error
    later on. *)
Lemma add_dose_accepted_error (amt off : float) (w : world) :
  (amt <=? 0) = false -> (1000 <? amt) = false ->
  forall e, InvalidAmount e ->
    fst (add_dose libm_pow clock strftime in_range amt off w) <> Raise e.
Proof.
  intros H0 H1 e He. pose proof (add_dose_accepted amt off w H0 H1) as H.
  cbv zeta in H. destruct (dose_time clock w off) as [ts k].
  rewrite H. destruct (fromtimestamp_ok in_range ts); cbn [fst].
  - discriminate.
  - intros [= <-]. destruct He; discriminate.
Qed.

Lemma loaded_stored (w : world) ds u n :
  data_file w = Some (mkStored ds (Some u) (Some n)) ->
  loaded w = mkData ds u n.
Proof. unfold loaded, load_data. intros ->. reflexivity. Qed.

Lemma loaded_mk ds u n c t k o :
  loaded (mkWorld (Some (mkStored ds (Some u) (Some n))) c t k o)
  = mkData ds u n.
Proof. reflexivity. Qed.

Lemma loaded_ext (w1 w2 : world) :
  data_file w1 = data_file w2 -> loaded w1 = loaded w2.
Proof.
  unfold loaded, load_data. intros ->.
  destruct (data_file w2) as [f|]; [|reflexivity].
  destruct (st_next_id f); [reflexivity|].
  destruct (assign_ids 1 (st_doses f)); reflexivity.
Qed.

Lemma loaded_fresh (w : world) :
  data_file w = None -> loaded w = mkData [] [] 1.
Proof. unfold loaded, load_data. intros ->. reflexivity. Qed.

(** [handle_undo] on a store whose last dose is [x]. *)
Lemma handle_undo_pops (w : world) l x :
  doses (loaded w) = l ++ [x] ->
  exists out,
    handle_undo libm_pow clock w =
    (Ok tt,
     mkWorld (Some (mkStored l (Some (undone_doses (loaded w) ++ [x]))
                             (Some (next_id (loaded w)))))
             None (timeseries_file w) (S (ticks w)) out).
Proof.
  intros H. unfold handle_undo. unfold bind at 1.
  rewrite load_data_loaded, H, last_last, removelast_last.
  destruct l; run; eauto.
Qed.

(** [handle_redo] on a store whose last undone dose is [x]. *)
Lemma handle_redo_restores (w : world) u x :
  undone_doses (loaded w) = u ++ [x] ->
  exists out,
    handle_redo libm_pow clock w =
    (Ok tt,
     mkWorld (Some (mkStored (doses (loaded w) ++ [x]) (Some u)
                             (Some (next_id (loaded w)))))
             None (timeseries_file w) (S (ticks w)) out).
Proof.
  intros H. unfold handle_redo. unfold bind at 1.
  rewrite load_data_loaded, H, last_last, removelast_last.
  destruct u; destruct (doses (loaded w)); run; eauto.
Qed.

Lemma fold_left_add_map (f : dose -> float) l a :
  fold_left (fun total d => total + f d) l a = fold_left add (map f l) a.
Proof. revert a. induction l as [|x l IH]; intros a; simpl; auto. Qed.

Lemma filter_perm (f : dose -> bool) l l' :
  Permutation l l' -> Permutation (filter f l) (filter f l').
Proof.
  induction 1 as [|x l l' P IH|x y l|l l' l'' P1 IH1 P2 IH2]; simpl.
  - constructor.
  - destruct (f x); [now constructor|exact IH].
  - destruct (f x), (f y); try reflexivity. apply perm_swap.
  - now transitivity (filter f l').
Qed.

(** C1, as amended: for doses whose timestamps are numbers and a query
    time [t] other than zero, [calculate_current_level] does not read the
    clock and returns, rounded to two decimals, the sum of
    [amount * 0.5 ** (((t - timestamp) / 3600) / 6)] over the list
    [summed], added from zero from left to right.  [summed] holds exactly
    the doses of the input with [timestamp <= t], each as often as it
    occurs there, so a dose with a later timestamp adds nothing; it is in
    ascending order of timestamp; and the doses of any one timestamp are in
    it in the order they have in the input.  Doses given in another order
    have the same level when [<] tells any two of their timestamps apart;
    and the empty list has the level 0. *)
Theorem current_level_sum (ds : list dose) (t : float) (w : world)
    (Ht : PyFloat.truthy t = true) (Hts : timestamps_ordered ds) :
  let level l := calculate_current_level libm_pow clock l (Some t) w in
  let weight d :=
    amount d * pow_half libm_pow (((t - timestamp d) / 3600) / 6) in
  let counted := filter (fun d => timestamp d <=? t) ds in
  let summed := valid_doses ds t in
  level ds = (Ok (PyFloat.round (fold_left add (map weight summed) 0) 2), w) /\
  Permutation summed counted /\
  ascending timestamp summed /\
  (forall k, filter (fun d => timestamp d =? k) summed
             = filter (fun d => timestamp d =? k) counted) /\
  (forall ds', Permutation ds ds' ->
               ForallOrdPairs (comparable timestamp) ds ->
               level ds' = level ds) /\
  level [] = (Ok 0, w).
Proof.
  cbv zeta. unfold calculate_current_level, or_now. rewrite Ht.
  unfold bind, ret, level_at.
  split; [|split; [|split; [|split; [|split]]]].
  - now rewrite fold_left_add_map.
  - unfold valid_doses. apply filter_perm, sorted_perm.
  - unfold valid_doses. apply ascending_filter, sorted_ascending. exact Hts.
  - intros k. unfold valid_doses.
    rewrite (filter_sorted dose timestamp (fun d => timestamp d <=? t) ds Hts).
    apply sorted_stable. apply Forall_filter. exact Hts.
  - intros ds' P H. unfold valid_doses.
    now rewrite (@sorted_perm_eq dose timestamp ds ds' P H).
  - reflexivity.
Qed.

(** C2: [add_dose] raises one of its two amount errors exactly when
    [amount <= 0] or [amount > 1000]; when it does, nothing of the world
    (store file, cache file, time-series file, clock, output) has changed;
    and an amount with [0 < amount <= 1000] raises neither. *)
Theorem add_dose_invalid_amount (amt off : float) (w : world) :
  let r := add_dose libm_pow clock strftime in_range amt off w in
  (((amt <=? 0) = true \/ (1000 <? amt) = true) <->
   exists e, InvalidAmount e /\ fst r = Raise e) /\
  (forall e, InvalidAmount e -> fst r = Raise e -> snd r = w) /\
  ((0 <? amt) = true -> (amt <=? 1000) = true ->
   forall e, InvalidAmount e -> fst r <> Raise e).
Proof.
  cbv zeta. repeat split.
  - intros [H|H].
    + exists AmountNotPositive. split; [now left|].
      unfold add_dose. now rewrite H.
    + destruct (amt <=? 0) eqn:H0.
      * exists AmountNotPositive. split; [now left|].
        unfold add_dose. now rewrite H0.
      * exists AmountTooLarge. split; [now right|].
        unfold add_dose. now rewrite H0, H.
  - intros (e & Hi & He).
    destruct (amt <=? 0) eqn:H0; [now left|].
    destruct (1000 <? amt) eqn:H1; [now right|].
    exfalso. exact (add_dose_accepted_error amt off w H0 H1 e Hi He).
  - intros e Hi He.
    destruct (amt <=? 0) eqn:H0.
    { unfold add_dose. now rewrite H0. }
    destruct (1000 <? amt) eqn:H1.
    { unfold add_dose. now rewrite H0, H1. }
    exfalso. exact (add_dose_accepted_error amt off w H0 H1 e Hi He).
  - intros Hpos Hmax e Hi.
    exact (add_dose_accepted_error amt off w (ltb_not_leb _ _ Hpos)
             (leb_not_ltb _ _ Hmax) e Hi).
Qed.

(** C3, as amended: for an amount in range and any offset, [add_dose]
    stamps the new dose with the clock minus [abs(minutes_offset * 60)]
    (replaced by a new clock reading should it lie after the clock).  If
    [datetime.fromtimestamp] converts that timestamp, [add_dose] gives the
    dose [next_id] as its id, appends it to the doses, writes the store
    with [next_id] one higher, removes the cache file and returns the level
    [calculate_current_level] computes, in the world so saved, for the new
    list of doses.  If it does not, [add_dose] raises the error of the
    conversion and every file is as it was. *)
Theorem add_dose_appends (amt off : float) (w : world)
    (Hpos : (0 <? amt) = true) (Hmax : (amt <=? 1000) = true) :
  let d := loaded w in
  let now := clock (ticks w) in
  let shifted := now - abs (off * 60) in
  let late := clock (S (ticks w)) <? shifted in
  let ts := if late then clock (S (S (ticks w))) else shifted in
  let new := mkDose (Some (next_id d)) ts amt (strftime ts) in
  let ds := doses d ++ [new] in
  let file := mkStored ds (Some (undone_doses d)) (Some (next_id d + 1)%Z) in
  let k := (ticks w + if late then 3 else 2)%nat in
  let saved := mkWorld (Some file) None (timeseries_file w) k (stdout w) in
  let r := add_dose libm_pow clock strftime in_range amt off w in
  (fromtimestamp_ok in_range ts = true ->
   r = calculate_current_level libm_pow clock ds None saved /\
   r = (Ok (level_at libm_pow ds (clock k)),
        mkWorld (Some file) None (timeseries_file w) (S k) (stdout w))) /\
  (fromtimestamp_ok in_range ts = false ->
   r = (Raise TimestampError,
        mkWorld (data_file w) (cache_file w) (timeseries_file w) k
                (stdout w))).
Proof.
  cbv zeta.
  pose proof (add_dose_accepted amt off w (ltb_not_leb _ _ Hpos)
                (leb_not_ltb _ _ Hmax)) as H.
  cbv zeta in H. unfold dose_time in H.
  destruct (clock (S (ticks w)) <? clock (ticks w) - abs (off * 60));
    rewrite H; split; intros ->; try split; reflexivity.
Qed.

(** C4: on a store with at least one dose, [handle_undo] moves the last
    dose of the list to the undone doses, and [handle_redo] right after it
    puts that same record, unchanged, back at the end of the doses. *)
Theorem undo_then_redo (w : world) (Hne : doses (loaded w) <> []) :
  let w1 := snd (handle_undo libm_pow clock w) in
  let w2 := snd (handle_redo libm_pow clock w1) in
  exists init removed,
    doses (loaded w) = init ++ [removed] /\
    doses (loaded w1) = init /\
    undone_doses (loaded w1) = undone_doses (loaded w) ++ [removed] /\
    doses (loaded w2) = init ++ [removed] /\
    undone_doses (loaded w2) = undone_doses (loaded w) /\
    next_id (loaded w2) = next_id (loaded w).
Proof.
  cbv zeta.
  destruct (exists_last Hne) as (init & removed & E).
  exists init, removed.
  destruct (handle_undo_pops w init removed E) as (out1 & R1).
  rewrite R1. cbn [snd].
  edestruct handle_redo_restores as (out2 & R2);
    [rewrite loaded_mk; reflexivity|].
  rewrite R2. cbn [snd]. rewrite !loaded_mk. cbn. repeat split; auto.
Qed.

(** C6, as amended: for a valid amount and an offset whose timestamp
    [datetime.fromtimestamp] converts, [add_dose] returns, and
    [handle_undo] right after it leaves the doses as they were before the
    dose was added, while [next_id] stays where [add_dose] put it, one
    above its value before. *)
Theorem add_then_undo (amt off : float) (w : world)
    (Hpos : (0 <? amt) = true) (Hmax : (amt <=? 1000) = true)
    (Hts : fromtimestamp_ok in_range (fst (dose_time clock w off)) = true) :
  let r := add_dose libm_pow clock strftime in_range amt off w in
  let w1 := snd r in
  let w2 := snd (handle_undo libm_pow clock w1) in
  (exists level, fst r = Ok level) /\
  fst (handle_undo libm_pow clock w1) = Ok tt /\
  doses (loaded w2) = doses (loaded w) /\
  undone_doses (loaded w2)
    = undone_doses (loaded w)
      ++ [mkDose (Some (next_id (loaded w))) (fst (dose_time clock w off))
                 amt (strftime (fst (dose_time clock w off)))] /\
  next_id (loaded w2) = next_id (loaded w1) /\
  next_id (loaded w1) = (next_id (loaded w) + 1)%Z.
Proof.
  cbv zeta.
  pose proof (add_dose_accepted amt off w (ltb_not_leb _ _ Hpos)
                (leb_not_ltb _ _ Hmax)) as H.
  cbv zeta in H. destruct (dose_time clock w off) as [ts k].
  cbn [fst] in Hts. rewrite Hts in H.
  rewrite H. cbn [snd fst].
  edestruct handle_undo_pops as (out & R);
    [rewrite loaded_mk; reflexivity|].
  rewrite R. cbn [snd fst]. rewrite !loaded_mk. cbn.
  split; [eexists; reflexivity|]. repeat split; auto.
Qed.

(** C9: reading the current level gives the same answer and leaves the
    same world whatever the cache file held before, or if there was none:
    the level is computed from the stored doses, and the cache file is
    rewritten with the value and the timestamp that are returned. *)
Theorem read_ignores_cache (w : world) (c1 c2 : option cache) :
  let with_cache c :=
    mkWorld (data_file w) c (timeseries_file w) (ticks w) (stdout w) in
  get_cached_level libm_pow clock strftime (with_cache c1) =
  get_cached_level libm_pow clock strftime (with_cache c2) /\
  exists c,
    fst (get_cached_level libm_pow clock strftime (with_cache c1)) = Ok c /\
    cache_file (snd (get_cached_level libm_pow clock strftime (with_cache c1)))
      = Some c /\
    cache_timestamp c = clock (ticks w) /\
    cache_level c = level_at libm_pow (doses (loaded w)) (clock (S (ticks w))).
Proof.
  cbv zeta.
  assert (R : forall c0,
    get_cached_level libm_pow clock strftime
      (mkWorld (data_file w) c0 (timeseries_file w) (ticks w) (stdout w)) =
    let c := mkCache (clock (ticks w))
               (level_at libm_pow (doses (loaded w)) (clock (S (ticks w))))
               (strftime (clock (ticks w))) in
    (Ok c, mkWorld (data_file w) (Some c) (timeseries_file w)
                   (S (S (ticks w))) (stdout w))).
  { intros c0. unfold get_cached_level, try_except, cache_current_level.
    unfold bind at 1. rewrite load_data_loaded.
    rewrite (loaded_ext (mkWorld (data_file w) c0 (timeseries_file w)
                                 (ticks w) (stdout w)) w eq_refl).
    run. reflexivity. }
  split.
  - now rewrite (R c1), (R c2).
  - rewrite (R c1). cbv zeta. eexists. simpl. repeat split.
Qed.

Lemma calculate_current_level_cases ds t w :
  exists w',
    calculate_current_level libm_pow clock ds (Some t) w =
      (Ok (level_at libm_pow ds
             (if PyFloat.truthy t then t else clock (ticks w))), w') /\
    same_files w w'.
Proof.
  unfold calculate_current_level, or_now, bind, ret, time_time, same_files.
  destruct (PyFloat.truthy t); eexists; split; try reflexivity; simpl; auto.
Qed.

Lemma same_files_trans w1 w2 w3 :
  same_files w1 w2 -> same_files w2 w3 -> same_files w1 w3.
Proof. unfold same_files. intuition congruence. Qed.

(** The sampling loop when the date of every sample time can be formed:
    [n] points, the [j]-th at [start_time + (i + j) * interval_seconds]. *)
Lemma sample_points ds start secs : forall n i w,
  (forall j, (j < n)%nat ->
     fromtimestamp_ok in_range
       (start + PyFloat.of_int ((i + Z.of_nat j) * secs)) = true) ->
  exists series w',
    sample libm_pow clock strftime in_range ds start secs i n w
      = (Ok series, w') /\
    same_files w w' /\
    List.length series = n /\
    forall j p, nth_error series j = Some p ->
      p_timestamp p = start + PyFloat.of_int ((i + Z.of_nat j) * secs) /\
      p_datetime p = strftime (p_timestamp p) /\
      (exists wk, same_files w wk /\
         fst (calculate_current_level libm_pow clock ds
                (Some (p_timestamp p)) wk) = Ok (p_level p)) /\
      (PyFloat.truthy (p_timestamp p) = true ->
         p_level p = level_at libm_pow ds (p_timestamp p)).
Proof.
  induction n as [|n IH]; intros i w Hok; simpl.
  - exists [], w. unfold ret, same_files.
    split; [reflexivity|]. split; [auto|]. split; [reflexivity|].
    intros j p Hp. destruct j; discriminate.
  - unfold bind at 1.
    destruct (calculate_current_level_cases ds
                (start + PyFloat.of_int (i * secs)) w) as (w1 & E1 & F1).
    rewrite E1.
    assert (H0 : fromtimestamp_ok in_range
                   (start + PyFloat.of_int (i * secs)) = true).
    { pose proof (Hok 0%nat (Nat.lt_0_succ n)) as H.
      now rewrite Z.add_0_r in H. }
    unfold bind at 1, format_time. rewrite H0. unfold ret at 1.
    destruct (IH (i + 1)%Z w1) as (rest & w2 & E2 & F2 & L2 & P2).
    { intros j Hj. pose proof (Hok (S j) (proj1 (Nat.succ_lt_mono j n) Hj)) as H.
      replace (i + 1 + Z.of_nat j)%Z with (i + Z.of_nat (S j))%Z by lia.
      exact H. }
    unfold bind at 1. rewrite E2. unfold ret.
    eexists; eexists; split; [reflexivity|].
    assert (F12 : same_files w w2) by exact (same_files_trans _ _ _ F1 F2).
    split; [exact F12|]. split; [simpl; congruence|].
    intros j p Hp. destruct j as [|j]; simpl in Hp.
    + injection Hp as <-. simpl. rewrite Z.add_0_r.
      repeat split.
      * exists w. split; [unfold same_files; auto|]. now rewrite E1.
      * intros T. now rewrite T.
    + destruct (P2 j p Hp) as (T & D & (wk & Fk & Lk) & Lt).
      repeat split; auto.
      * rewrite T. do 3 f_equal. lia.
      * exists wk. split; [|exact Lk]. exact (same_files_trans _ _ _ F1 Fk).
Qed.


(** A loop whose body returns for every element returns the list of the
    results and leaves the world as the body does. *)
Lemma for_each_pure {A B} (f : A -> M B) (g : A -> B) (l : list A) w :
  Forall (fun x => forall w0, f x w0 = (Ok (g x), w0)) l ->
  for_each f l w = (Ok (map g l), w).
Proof.
  induction 1 as [|x l Hx Hl IH]; simpl; [reflexivity|].
  unfold bind at 1. rewrite Hx. unfold bind at 1. rewrite IH. reflexivity.
Qed.

Lemma history_of_entry now d w :
  history_of libm_pow now d w =
    if pow_overflows libm_pow (hours_ago now d / 6)
    then (Raise PowOverflow, w)
    else (Ok (entry_of libm_pow now d), w).
Proof.
  unfold history_of, float_pow_half, bind, HALF_LIFE_HOURS.
  destruct (pow_overflows libm_pow (hours_ago now d / 6)); reflexivity.
Qed.

(** What [show_history] returns for a limit of at least one when no power
    overflows: the entries of the last [limit] doses of the sorted list
    (all of them when there are fewer), each with the hours since the dose
    rounded to one decimal and [amount * 0.5 ** (hours_ago / 6)] rounded to
    two. *)
Lemma show_history_recent (limit : Z) (w : world) :
  (0 < limit)%Z ->
  Forall (fun d => pow_overflows libm_pow
                     (hours_ago (clock (ticks w)) d / 6) = false)
         (doses (loaded w)) ->
  let ds := sorted timestamp (doses (loaded w)) in
  let n := List.length ds in
  exists w',
    show_history libm_pow clock limit w =
      (Ok (map (entry_of libm_pow (clock (ticks w)))
               (skipn (n - Z.to_nat limit) ds)), w') /\
    same_files w w'.
Proof.
  intros Hl Hp. cbv zeta. unfold show_history. unfold bind at 1.
  rewrite load_data_loaded.
  destruct (doses (loaded w)) as [|x l] eqn:E.
  - exists w. unfold ret, same_files. simpl. auto.
  - assert (S : forall ds : list dose,
               slice_from_neg ds limit
               = skipn (List.length ds - Z.to_nat limit) ds).
    { intros ds. unfold slice_from_neg.
      destruct (- limit <? 0)%Z eqn:C; [|apply Z.ltb_ge in C; lia].
      f_equal. lia. }
    unfold bind, time_time. rewrite S.
    rewrite (for_each_pure _ (entry_of libm_pow (clock (ticks w)))).
    + eexists. split; [reflexivity|unfold same_files; simpl; auto].
    + apply Forall_forall. intros y Hy w0.
      rewrite history_of_entry.
      assert (Hin : In y (x :: l)).
      { eapply Permutation_in; [apply sorted_perm|].
        match type of Hy with In _ (skipn ?k ?ds) =>
          rewrite <- (firstn_skipn k ds) end.
        apply in_or_app. now right. }
      rewrite Forall_forall in Hp. now rewrite (Hp y Hin).
Qed.

(** [handle_undo] and [handle_redo], when there is a dose to move, write
    the store and remove the cache file; with nothing to move they only
    print. *)
Lemma undo_redo_effects (w : world) :
  (doses (loaded w) <> [] ->
   let w' := snd (handle_undo libm_pow clock w) in
   option_map st_doses (data_file w') = Some (removelast (doses (loaded w)))
   /\ cache_file w' = None) /\
  (undone_doses (loaded w) <> [] ->
   let w' := snd (handle_redo libm_pow clock w) in
   option_map st_undone_doses (data_file w')
     = Some (Some (removelast (undone_doses (loaded w))))
   /\ cache_file w' = None) /\
  (doses (loaded w) = [] ->
   handle_undo libm_pow clock w =
     (Ok tt, mkWorld (data_file w) (cache_file w) (timeseries_file w)
                     (ticks w) (stdout w ++ [NoDosesToUndo]))) /\
  (undone_doses (loaded w) = [] ->
   handle_redo libm_pow clock w =
     (Ok tt, mkWorld (data_file w) (cache_file w) (timeseries_file w)
                     (ticks w) (stdout w ++ [NoDosesToRedo]))).
Proof.
  split; [|split; [|split]]; intros H; cbv zeta.
  - destruct (exists_last H) as (l & x & E).
    destruct (handle_undo_pops w l x E) as (out & R).
    rewrite R, E, removelast_last. split; reflexivity.
  - destruct (exists_last H) as (l & x & E).
    destruct (handle_redo_restores w l x E) as (out & R).
    rewrite R, E, removelast_last. split; reflexivity.
  - unfold handle_undo. unfold bind at 1.
    rewrite load_data_loaded, H. reflexivity.
  - unfold handle_redo. unfold bind at 1.
    rewrite load_data_loaded, H. reflexivity.
Qed.

(** [clean_old_doses] keeps the doses less than sixty hours old, writes the
    store, and never touches the cache file. *)
Lemma clean_old_doses_effects (w : world) :
  let now := clock (ticks w) in
  let fresh x := (now - timestamp x) / 3600 <? HALF_LIFE_HOURS * 10 in
  clean_old_doses clock w =
    (Ok tt,
     mkWorld (Some (mkStored (filter fresh (doses (loaded w)))
                             (Some (undone_doses (loaded w)))
                             (Some (next_id (loaded w)))))
             (cache_file w) (timeseries_file w) (S (ticks w)) (stdout w)).
Proof.
  cbv zeta. unfold clean_old_doses. unfold bind at 1.
  rewrite load_data_loaded. reflexivity.
Qed.

(** C10: when the store file does not exist, [load_data] returns the empty
    store with [next_id] 1 and touches nothing; so the level read on a
    first run is 0, and a first [add_dose] with a valid amount either
    stores exactly one dose, with id 1, when the date of its timestamp can
    be formed, or raises and leaves the store file missing, so that the
    first dose is still to come. *)
Theorem first_run (w : world) (Hnone : data_file w = None) :
  load_data w = (Ok (mkData [] [] 1), w) /\
  (exists c w', get_cached_level libm_pow clock strftime w = (Ok c, w') /\
                cache_level c = 0) /\
  (forall amt off, (0 <? amt) = true -> (amt <=? 1000) = true ->
     let r := add_dose libm_pow clock strftime in_range amt off w in
     let ts := fst (dose_time clock w off) in
     (fromtimestamp_ok in_range ts = true ->
      exists level,
        fst r = Ok level /\
        data_file (snd r)
          = Some (mkStored [mkDose (Some 1%Z) ts amt (strftime ts)]
                           (Some []) (Some 2%Z))) /\
     (fromtimestamp_ok in_range ts = false ->
      fst r = Raise TimestampError /\ data_file (snd r) = None)).
Proof.
  split; [|split].
  - unfold load_data. now rewrite Hnone.
  - unfold get_cached_level, try_except, cache_current_level.
    unfold bind at 1. rewrite load_data_loaded, (loaded_fresh _ Hnone).
    run. eexists; eexists; split; reflexivity.
  - intros amt off Hpos Hmax. cbv zeta.
    pose proof (add_dose_accepted amt off w (ltb_not_leb _ _ Hpos)
                  (leb_not_ltb _ _ Hmax)) as H.
    cbv zeta in H. rewrite (loaded_fresh _ Hnone) in H. simpl in H.
    destruct (dose_time clock w off) as [ts k]. rewrite H. cbn [fst].
    split; intros ->; cbn [fst snd data_file].
    + eexists. split; reflexivity.
    + split; [reflexivity|exact Hnone].
Qed.

End StimFacts.

(** ** The properties at concrete inputs *)

Local Open Scope float_scope.

(** Different floats: the test [==] tells them apart. *)
Ltac floats_differ :=
  let H := fresh in
  intro H;
  match type of H with
  | ?x = ?y => apply (f_equal (fun z => z =? y)) in H
  end;
  vm_compute in H; discriminate H.

(** C1, counterexample.  First, a query time of zero: the dose stamped
    1700000000 lies after it and the sum the specification describes is 0,
    but zero counts as no time given, the clock (1700000000) is read
    instead, and the level returned is 100.  Second, three doses with one
    and the same timestamp, queried at that time, where every weight is
    exactly 1: in one order the amounts add up to 0.125, which rounds to
    0.12; in another to the next float above 0.125, which rounds to 0.13. *)
Lemma current_level_counterexample :
  (let ds := [ex_dose 1 1700000000 100] in
   fst (calculate_current_level ex_pow ex_clock ds (Some 0) fresh_world)
     = Ok 100 /\
   spec_current_level ex_pow ds 0 = 0 /\
   100 <> 0) /\
  (let t := 1700000000 in
   let l1 := [ex_dose 1 t 0.125; ex_dose 2 t 0x1p-56; ex_dose 3 t 0x1p-56] in
   let l2 := [ex_dose 2 t 0x1p-56; ex_dose 3 t 0x1p-56; ex_dose 1 t 0.125] in
   Permutation l1 l2 /\
   fst (calculate_current_level ex_pow ex_clock l1 (Some t) fresh_world)
     = Ok 0.12 /\
   fst (calculate_current_level ex_pow ex_clock l2 (Some t) fresh_world)
     = Ok 0.13 /\
   0.12 <> 0.13).
Proof.
  cbv zeta. split.
  - split; [vm_compute; reflexivity|].
    split; [vm_compute; reflexivity|floats_differ].
  - split; [apply (Permutation_cons_append [_; _])|].
    split; [vm_compute; reflexivity|].
    split; [vm_compute; reflexivity|floats_differ].
Qed.

(** C1 at a concrete input: two doses, entered in either order, queried
    10000 seconds after the clock starts.  The later dose is entered first
    and added last. *)
Lemma current_level_sum_witness :
  let t := 1700010000 in
  PyFloat.truthy t = true /\
  timestamps_ordered [noon; morning] /\
  calculate_current_level ex_pow ex_clock [noon; morning] (Some t) fresh_world
    = (Ok 77.31, fresh_world) /\
  valid_doses [noon; morning] t = [morning; noon] /\
  ascending timestamp (valid_doses [noon; morning] t) /\
  calculate_current_level ex_pow ex_clock [morning; noon] (Some t) fresh_world
    = (Ok 77.31, fresh_world).
Proof.
  cbv zeta. split; [reflexivity|].
  assert (N : timestamps_ordered [noon; morning]) by (repeat constructor).
  split; [exact N|].
  destruct (current_level_sum ex_pow ex_clock [noon; morning] 1700010000
              fresh_world eq_refl N) as (H1 & _ & H3 & _ & H5 & _).
  cbv zeta in H5.
  assert (C : ForallOrdPairs (comparable timestamp) [noon; morning]).
  { repeat constructor. }
  rewrite (H5 [morning; noon] (perm_swap _ _ _) C), H1.
  split; [vm_compute; reflexivity|].
  split; [vm_compute; reflexivity|].
  split; [exact H3|vm_compute; reflexivity].
Defined.

(** C3, counterexample: 100 mg entered on a first run with an offset of
    1e10 minutes, which is some 19000 years, and with an offset that is not
    a number.  The amount is in range, but the date of the timestamp
    cannot be formed: [add_dose] raises after two clock readings, and no
    dose is appended and no store written. *)
Lemma add_dose_counterexample :
  (0 <? 100) = true /\ (100 <=? 1000) = true /\
  add_dose ex_pow ex_clock ex_strftime ex_in_range 100 1e10 fresh_world
    = (Raise TimestampError, mkWorld None None None 2 []) /\
  add_dose ex_pow ex_clock ex_strftime ex_in_range 100 nan fresh_world
    = (Raise TimestampError, mkWorld None None None 2 []).
Proof. vm_compute. repeat split. Qed.

(** C3 at a concrete input: 100 mg entered on a first run with an offset of
    360 minutes. *)
Lemma add_dose_appends_witness :
  (0 <? 100) = true /\ (100 <=? 1000) = true /\
  fromtimestamp_ok ex_in_range 1699978400 = true /\
  add_dose ex_pow ex_clock ex_strftime ex_in_range 100 360 fresh_world =
    (Ok 50,
     mkWorld (Some (mkStored [morning] (Some []) (Some 2%Z))) None None 3 []).
Proof.
  split; [reflexivity|]. split; [reflexivity|]. split; [reflexivity|].
  destruct (add_dose_appends ex_pow ex_clock ex_strftime ex_in_range 100 360
              fresh_world eq_refl eq_refl) as (H & _).
  destruct (H eq_refl) as (_ & E).
  rewrite E. vm_compute. reflexivity.
Defined.

(** C4 at a concrete input: a store of two doses. *)
Lemma undo_then_redo_witness :
  let w := ex_world [morning; noon] [] 3 (Some old_cache) in
  let w1 := snd (handle_undo ex_pow ex_clock w) in
  let w2 := snd (handle_redo ex_pow ex_clock w1) in
  doses (loaded w) <> [] /\
  exists init removed,
    doses (loaded w) = init ++ [removed] /\
    doses (loaded w1) = init /\
    undone_doses (loaded w1) = undone_doses (loaded w) ++ [removed] /\
    doses (loaded w2) = init ++ [removed] /\
    undone_doses (loaded w2) = undone_doses (loaded w) /\
    next_id (loaded w2) = next_id (loaded w).
Proof.
  cbv zeta.
  assert (H : doses (loaded (ex_world [morning; noon] [] 3 (Some old_cache)))
              <> []) by (simpl; discriminate).
  split; [exact H|].
  exact (undo_then_redo ex_pow ex_clock
           (ex_world [morning; noon] [] 3 (Some old_cache)) H).
Defined.

(** C6, counterexample: 80 mg with an offset of 1e10 minutes, entered into
    a store of one dose.  The amount is valid, but [add_dose] raises and
    stores nothing, so the undo that follows takes out the dose that was
    there before: the doses are not what they were before the add. *)
Lemma add_then_undo_counterexample :
  let w := ex_world [morning] [] 2 None in
  let r := add_dose ex_pow ex_clock ex_strftime ex_in_range 80 1e10 w in
  let w2 := snd (handle_undo ex_pow ex_clock (snd r)) in
  (0 <? 80) = true /\ (80 <=? 1000) = true /\
  fst r = Raise TimestampError /\
  doses (loaded w) = [morning] /\
  doses (loaded w2) = [] /\
  doses (loaded w2) <> doses (loaded w).
Proof. vm_compute. repeat split. discriminate. Qed.

(** C6 at a concrete input: 80 mg added to a store of one dose with an
    offset of 180 minutes, then undone. *)
Lemma add_then_undo_witness :
  let w := ex_world [morning] [] 2 None in
  let w1 := snd (add_dose ex_pow ex_clock ex_strftime ex_in_range 80 180 w) in
  let w2 := snd (handle_undo ex_pow ex_clock w1) in
  (0 <? 80) = true /\ (80 <=? 1000) = true /\
  fromtimestamp_ok ex_in_range (fst (dose_time ex_clock w 180)) = true /\
  doses (loaded w2) = [morning] /\
  undone_doses (loaded w2) = [noon] /\
  next_id (loaded w2) = 3%Z /\ next_id (loaded w1) = 3%Z.
Proof.
  cbv zeta. split; [reflexivity|]. split; [reflexivity|].
  split; [reflexivity|].
  destruct (add_then_undo ex_pow ex_clock ex_strftime ex_in_range 80 180
              (ex_world [morning] [] 2 None) eq_refl eq_refl eq_refl)
    as (_ & _ & H1 & H2 & H3 & H4).
  rewrite H1, H2, H3, H4. vm_compute. repeat split.
Defined.



(** C10 at a concrete input: the world without any file, and a first dose
    of 100 mg entered at once or with an offset of 1e10 minutes. *)
Lemma first_run_witness :
  let now := add_dose ex_pow ex_clock ex_strftime ex_in_range 100 0
               fresh_world in
  let never := add_dose ex_pow ex_clock ex_strftime ex_in_range 100 1e10
                 fresh_world in
  data_file fresh_world = None /\
  load_data fresh_world = (Ok (mkData [] [] 1), fresh_world) /\
  (exists c w', get_cached_level ex_pow ex_clock ex_strftime fresh_world
                = (Ok c, w') /\ cache_level c = 0) /\
  (exists level,
     fst now = Ok level /\
     data_file (snd now)
       = Some (mkStored [ex_dose 1 1700000000 100] (Some []) (Some 2%Z))) /\
  fst never = Raise TimestampError /\ data_file (snd never) = None.
Proof.
  cbv zeta. split; [reflexivity|].
  destruct (first_run ex_pow ex_clock ex_strftime ex_in_range fresh_world
              eq_refl) as (H1 & H2 & H3).
  split; [exact H1|]. split; [exact H2|].
  destruct (H3 100 0 eq_refl eq_refl) as (A & _).
  destruct (H3 100 1e10 eq_refl eq_refl) as (_ & B).
  split; [exact (A eq_refl)|exact (B eq_refl)].
Defined.

(** The examples of the specification: 100 mg is 100 at once, 50 after six
    hours and 12.5 after eighteen; amounts of -5 and 1500 are refused and
    leave the world as it was; without doses the default window of a day
    has 97 samples, all at level 0. *)
Example decay_example :
  let d := [ex_dose 1 1700000000 100] in
  level_at ex_pow d 1700000000 = 100 /\
  level_at ex_pow d (1700000000 + 6 * 3600) = 50 /\
  level_at ex_pow d (1700000000 + 18 * 3600) = 12.5.
Proof. vm_compute. repeat split. Qed.

Example invalid_amount_example :
  add_dose ex_pow ex_clock ex_strftime ex_in_range (-5) 0 fresh_world
    = (Raise AmountNotPositive, fresh_world) /\
  add_dose ex_pow ex_clock ex_strftime ex_in_range 1500 0 fresh_world
    = (Raise AmountTooLarge, fresh_world).
Proof. vm_compute. repeat split. Qed.

Example empty_timeseries_example :
  exists series w',
    generate_timeseries ex_pow ex_clock ex_strftime ex_in_range None None 15
      fresh_world = (Ok series, w') /\
    List.length series = 97%nat /\
    forallb (fun p => p_level p =? 0) series = true.
Proof.
  destruct (generate_timeseries ex_pow ex_clock ex_strftime ex_in_range
              None None 15 fresh_world) as [[series|e] w'] eqn:E;
    vm_compute in E; [|discriminate].
  exists series, w'. injection E as <- <-.
  split; [reflexivity|]. vm_compute. split; reflexivity.
Qed.

(** C5, where the code falls short: [clean_old_doses] and [undo_last]
    rewrite the store file (here the eleven-day-old dose is pruned, or
    popped) and leave the cache file of the earlier read in place, while
    [add_dose], [handle_undo] and [handle_redo] remove it. *)
Theorem prune_leaves_cache :
  let w := ex_world [stale] [noon] 3 (Some old_cache) in
  (data_file (snd (clean_old_doses ex_clock w))
     = Some (mkStored [] (Some [noon]) (Some 3%Z)) /\
   cache_file (snd (clean_old_doses ex_clock w)) = Some old_cache) /\
  (data_file (snd (undo_last w))
     = Some (mkStored [] (Some [noon]) (Some 3%Z)) /\
   cache_file (snd (undo_last w)) = Some old_cache) /\
  cache_file (snd (add_dose ex_pow ex_clock ex_strftime ex_in_range 100 0 w))
    = None /\
  cache_file (snd (handle_undo ex_pow ex_clock w)) = None /\
  cache_file (snd (handle_redo ex_pow ex_clock w)) = None.
Proof. vm_compute. repeat split. Qed.

(** C8, where the code falls short: with a limit of zero [show_history]
    returns an entry for every dose, not for none, because the slice
    [[-0:]] is the whole list. *)
Theorem history_limit_zero :
  let w := ex_world [noon; morning] [] 3 None in
  fst (show_history ex_pow ex_clock 0 w) =
    Ok [mkEntry 1699978400 EmptyString 100 6 50;
        mkEntry 1699989200 EmptyString 80 3 56.57] /\
  fst (show_history ex_pow ex_clock 1 w) =
    Ok [mkEntry 1699989200 EmptyString 80 3 56.57].
Proof. vm_compute. repeat split. Qed.

(** ** Further properties of the store, the model and the planner *)

Section Coverage.

Local Open Scope float_scope.

Variable libm_pow : float -> float -> float.
Variable clock : nat -> float.
Variable strftime : float -> string.
Variable in_range : float -> bool.

(** X1: the sign of the offset does not matter to [add_dose]: an offset
    and its negative give the same result and leave the same world, since
    only [abs(minutes_offset * 60)] is used. *)
Theorem add_dose_offset_sign (amt off : float) (w : world) :
  add_dose libm_pow clock strftime in_range amt (- off) w
  = add_dose libm_pow clock strftime in_range amt off w.
Proof. unfold add_dose. now rewrite abs_mul_opp. Qed.

(** X2: a NaN amount passes both checks of [add_dose]: when the date of
    the timestamp can be formed, no error is raised and a dose with that
    amount is appended to the store. *)
Theorem add_dose_accepts_nan (amt off : float) (w : world)
    (Hnan : is_nan amt = true)
    (Hts : fromtimestamp_ok in_range (fst (dose_time clock w off)) = true) :
  let ts := fst (dose_time clock w off) in
  exists level w',
    add_dose libm_pow clock strftime in_range amt off w = (Ok level, w') /\
    data_file w' =
      Some (mkStored (doses (loaded w)
                      ++ [mkDose (Some (next_id (loaded w))) ts amt
                                 (strftime ts)])
                     (Some (undone_doses (loaded w)))
                     (Some (next_id (loaded w) + 1)%Z)).
Proof.
  cbv zeta.
  pose proof (add_dose_accepted libm_pow clock strftime in_range amt off w
                (nan_leb _ 0 Hnan) (nan_ltb_r 1000 _ Hnan)) as H.
  cbv zeta in H. destruct (dose_time clock w off) as [ts k].
  cbn [fst] in *. rewrite Hts in H.
  rewrite H. eexists; eexists. split; reflexivity.
Qed.

Lemma fold_add_nan l : forall a,
  is_nan a = true \/ Exists (fun x => is_nan x = true) l ->
  is_nan (fold_left add l a) = true.
Proof.
  induction l as [|x l IH]; intros a H; simpl.
  - destruct H as [H|H]; [exact H|inversion H].
  - apply IH. destruct H as [H|H].
    + left. now apply nan_add_l.
    + inversion H; subst; [left; now apply nan_add_r|now right].
Qed.

(** X3: one dose with a NaN amount and a timestamp not after the query
    time makes the level NaN, whatever the other doses are. *)
Theorem nan_amount_poisons_level (ds : list dose) (t : float) (d : dose)
    (Hin : In d ds) (Hnan : is_nan (amount d) = true)
    (Hle : (timestamp d <=? t) = true) :
  is_nan (level_at libm_pow ds t) = true.
Proof.
  unfold level_at. rewrite fold_left_add_map.
  assert (N : is_nan (fold_left add
                        (map (remaining libm_pow t) (valid_doses ds t)) 0)
              = true).
  { apply fold_add_nan. right. apply Exists_exists.
    exists (remaining libm_pow t d). split.
    - apply in_map. unfold valid_doses. apply filter_In. split; [|exact Hle].
      eapply Permutation_in; [symmetry; apply sorted_perm|exact Hin].
    - unfold remaining. now apply nan_mul_l. }
  now rewrite nan_round.
Qed.

(** X4: when no timestamp is NaN, the doses stamped after the query time
    do not affect the level at all: the level of a list is the level of
    its doses with [timestamp <= t]. *)
Theorem level_ignores_later_doses (ds : list dose) (t : float)
    (Hts : timestamps_ordered ds) :
  level_at libm_pow ds t
  = level_at libm_pow (filter (fun d => timestamp d <=? t) ds) t.
Proof.
  unfold level_at, valid_doses. do 2 f_equal.
  rewrite (@filter_sorted dose timestamp (fun d => timestamp d <=? t) ds Hts).
  symmetry. apply forallb_filter_id.
  apply forallb_forall. intros x Hx.
  assert (In x (filter (fun d => timestamp d <=? t) ds)).
  { eapply Permutation_in; [apply sorted_perm|exact Hx]. }
  apply filter_In in H. destruct H as [_ H]. exact H.
Qed.

Lemma assign_ids_nth ds : forall n i x,
  nth_error ds i = Some x ->
  nth_error (fst (assign_ids n ds)) i =
    Some (if lacks_id x
          then mkDose (Some (n + Z.of_nat
                               (List.length (filter lacks_id (firstn i ds))))%Z)
                      (timestamp x) (amount x) (datetime x)
          else x).
Proof.
  induction ds as [|y ds IH]; intros n i x Hx; [now destruct i|].
  cbn [assign_ids].
  destruct (dose_id y) as [j|] eqn:E.
  - specialize (IH n). destruct (assign_ids n ds) as [r m].
    destruct i as [|i]; cbn [fst nth_error firstn filter] in *.
    + injection Hx as <-. unfold lacks_id. now rewrite E.
    + unfold lacks_id at 2. rewrite E. now apply IH.
  - specialize (IH (n + 1)%Z). destruct (assign_ids (n + 1) ds) as [r m].
    destruct i as [|i]; cbn [fst nth_error firstn filter] in *.
    + injection Hx as <-. unfold lacks_id. rewrite E. cbn.
      now rewrite Z.add_0_r.
    + unfold lacks_id at 2. rewrite E. cbn [List.length].
      rewrite (IH i x Hx).
      destruct (lacks_id x); [|reflexivity].
      do 3 f_equal. lia.
Qed.

Lemma assign_ids_next ds : forall n,
  snd (assign_ids n ds)
  = (n + Z.of_nat (List.length (filter lacks_id ds)))%Z /\
  List.length (fst (assign_ids n ds)) = List.length ds.
Proof.
  induction ds as [|y ds IH]; intros n; simpl; [split; [lia|reflexivity]|].
  unfold lacks_id at 1. destruct (dose_id y) as [j|].
  - destruct (IH n) as [H1 H2]. destruct (assign_ids n ds); simpl in *.
    split; [exact H1|now rewrite H2].
  - destruct (IH (n + 1)%Z) as [H1 H2].
    destruct (assign_ids (n + 1) ds); simpl in *.
    split; [lia|now rewrite H2].
Qed.

(** X5: a store file without ['next_id'] is numbered by [load_data]: each
    dose without an id gets one, counting from 1 in list order, each dose
    with an id is kept as it is, nothing else of a dose changes, [next_id]
    is one more than the number of ids given out, and missing undone doses
    are the empty list. *)
Theorem load_data_numbers_doses (w : world) (f : stored)
    (Hf : data_file w = Some f) (Hn : st_next_id f = None) :
  let d := loaded w in
  List.length (doses d) = List.length (st_doses f) /\
  (forall i x, nth_error (st_doses f) i = Some x ->
     nth_error (doses d) i =
       Some (if lacks_id x
             then mkDose (Some (1 + Z.of_nat
                                  (List.length
                                     (filter lacks_id
                                        (firstn i (st_doses f)))))%Z)
                         (timestamp x) (amount x) (datetime x)
             else x)) /\
  next_id d
    = (1 + Z.of_nat (List.length (filter lacks_id (st_doses f))))%Z /\
  undone_doses d = match st_undone_doses f with
                   | Some u => u
                   | None => []
                   end.
Proof.
  cbv zeta. unfold loaded, load_data. rewrite Hf, Hn.
  pose proof (assign_ids_nth (st_doses f) 1) as N.
  destruct (assign_ids_next (st_doses f) 1) as [M L].
  destruct (assign_ids 1 (st_doses f)) as [r m]. simpl in *.
  repeat split; auto.
Qed.

(** What [save_data] writes, [load_data] reads back unchanged. *)
Lemma save_then_load (d : data) (w : world) :
  load_data (snd (save_data d w)) = (Ok d, snd (save_data d w)).
Proof. destruct d. reflexivity. Qed.

Lemma sorted_length (l : list dose) :
  List.length (sorted timestamp l) = List.length l.
Proof. apply Permutation_length, sorted_perm. Qed.

(** X6: for a limit of at least one, a store whose timestamps are numbers
    and a clock reading at which no power overflows, [show_history]
    changes no file and returns one entry for each of the last [limit]
    doses of the store arranged in ascending order of timestamp (for all
    of them when there are fewer): the hours since the dose rounded to one
    decimal and [amount * 0.5 ** (hours_ago / 6)] rounded to two. *)
Theorem show_history_last (limit : Z) (w : world) (Hl : (0 < limit)%Z)
    (Hts : timestamps_ordered (doses (loaded w)))
    (Hpow : Forall (fun d => pow_overflows libm_pow
                               (hours_ago (clock (ticks w)) d / 6) = false)
                   (doses (loaded w))) :
  exists older shown w',
    show_history libm_pow clock limit w
      = (Ok (map (entry_of libm_pow (clock (ticks w))) shown), w') /\
    same_files w w' /\
    Permutation (older ++ shown) (doses (loaded w)) /\
    ascending timestamp (older ++ shown) /\
    (forall k, filter (fun d => timestamp d =? k) (older ++ shown)
               = filter (fun d => timestamp d =? k) (doses (loaded w))) /\
    List.length shown
      = Nat.min (Z.to_nat limit) (List.length (doses (loaded w))).
Proof.
  destruct (show_history_recent libm_pow clock limit w Hl Hpow)
    as (w' & E & F).
  cbv zeta in E.
  set (ds := sorted timestamp (doses (loaded w))) in *.
  set (k := (List.length ds - Z.to_nat limit)%nat) in *.
  exists (firstn k ds), (skipn k ds), w'.
  split; [exact E|]. split; [exact F|].
  rewrite firstn_skipn. unfold ds.
  split; [apply sorted_perm|].
  split; [apply sorted_ascending; exact Hts|].
  split; [intros k0; apply sorted_stable; exact Hts|].
  rewrite length_skipn. unfold k, ds. rewrite sorted_length. lia.
Qed.

(** The store after [handle_undo]: the last dose, if there is one, has
    moved to the end of the undone doses. *)
Lemma handle_undo_store (w : world) :
  (doses (loaded w) = [] /\
   loaded (snd (handle_undo libm_pow clock w)) = loaded w) \/
  exists l x,
    doses (loaded w) = l ++ [x] /\
    loaded (snd (handle_undo libm_pow clock w))
    = mkData l (undone_doses (loaded w) ++ [x]) (next_id (loaded w)).
Proof.
  destruct (doses (loaded w)) as [|y l'] eqn:E.
  - left. split; [reflexivity|].
    destruct (undo_redo_effects libm_pow clock w) as (_ & _ & H & _).
    rewrite (H E). now apply loaded_ext.
  - right. assert (Hne : doses (loaded w) <> []) by (rewrite E; discriminate).
    destruct (exists_last Hne) as (l & x & El). exists l, x.
    rewrite <- E. split; [exact El|].
    destruct (handle_undo_pops libm_pow clock w l x El) as (out & R).
    rewrite R. reflexivity.
Qed.

(** The store after [handle_redo]: the last undone dose, if there is one,
    has moved to the end of the doses. *)
Lemma handle_redo_store (w : world) :
  (undone_doses (loaded w) = [] /\
   loaded (snd (handle_redo libm_pow clock w)) = loaded w) \/
  exists u x,
    undone_doses (loaded w) = u ++ [x] /\
    loaded (snd (handle_redo libm_pow clock w))
    = mkData (doses (loaded w) ++ [x]) u (next_id (loaded w)).
Proof.
  destruct (undone_doses (loaded w)) as [|y l'] eqn:E.
  - left. split; [reflexivity|].
    destruct (undo_redo_effects libm_pow clock w) as (_ & _ & _ & H).
    rewrite (H E). now apply loaded_ext.
  - right.
    assert (Hne : undone_doses (loaded w) <> [])
      by (rewrite E; discriminate).
    destruct (exists_last Hne) as (u & x & El). exists u, x.
    rewrite <- E. split; [exact El|].
    destruct (handle_redo_restores libm_pow clock w u x El) as (out & R).
    rewrite R. reflexivity.
Qed.

(** X7: [handle_undo] and [handle_redo] neither lose nor invent a dose:
    the doses and the undone doses taken together are the same collection
    before and after, and [next_id] does not change. *)
Theorem undo_redo_keep_doses (w : world) :
  let all d := doses d ++ undone_doses d in
  let u := loaded (snd (handle_undo libm_pow clock w)) in
  let r := loaded (snd (handle_redo libm_pow clock w)) in
  Permutation (all u) (all (loaded w)) /\ next_id u = next_id (loaded w) /\
  Permutation (all r) (all (loaded w)) /\ next_id r = next_id (loaded w).
Proof.
  cbv zeta. split; [|split; [|split]].
  - destruct (handle_undo_store w) as [[_ ->]|(l & x & E & ->)];
      [reflexivity|].
    rewrite E. simpl. rewrite <- !app_assoc.
    apply Permutation_app_head, Permutation_app_comm.
  - destruct (handle_undo_store w) as [[_ ->]|(l & x & E & ->)];
      reflexivity.
  - destruct (handle_redo_store w) as [[_ ->]|(u & x & E & ->)];
      [reflexivity|].
    rewrite E. simpl. rewrite <- !app_assoc.
    apply Permutation_app_head, Permutation_app_comm.
  - destruct (handle_redo_store w) as [[_ ->]|(u & x & E & ->)];
      reflexivity.
Qed.

(** X8: on a store with an undone dose, [handle_redo] followed by
    [handle_undo] gives back the doses, the undone doses and [next_id]
    there were before. *)
Theorem redo_then_undo (w : world) (Hne : undone_doses (loaded w) <> []) :
  let w1 := snd (handle_redo libm_pow clock w) in
  let w2 := snd (handle_undo libm_pow clock w1) in
  loaded w2 = loaded w.
Proof.
  cbv zeta.
  destruct (handle_redo_store w) as [[E _]|(u & x & E & R1)];
    [contradiction|].
  destruct (handle_undo_store (snd (handle_redo libm_pow clock w)))
    as [[E2 _]|(l & y & E2 & R2)].
  - rewrite R1 in E2. simpl in E2. now destruct (doses (loaded w)).
  - rewrite R2, R1. rewrite R1 in E2. simpl in *.
    apply app_inj_tail in E2. destruct E2 as [<- <-].
    rewrite <- E. now destruct (loaded w).
Qed.

(** X9: if every id in the store is below [next_id], [add_dose] with a
    valid amount and a timestamp whose date can be formed gives the new
    dose an id that no dose and no undone dose has, and every id is below
    [next_id] afterwards too; and if the date cannot be formed the store is
    as it was, so every id is below [next_id] in either case. *)
Theorem add_dose_fresh_id (amt off : float) (w : world)
    (Hpos : (0 <? amt) = true) (Hmax : (amt <=? 1000) = true)
    (Hinv : ids_below (loaded w)) :
  let w' := snd (add_dose libm_pow clock strftime in_range amt off w) in
  let ts := fst (dose_time clock w off) in
  ids_below (loaded w') /\
  (fromtimestamp_ok in_range ts = true ->
   exists new,
     doses (loaded w') = doses (loaded w) ++ [new] /\
     dose_id new = Some (next_id (loaded w)) /\
     Forall (fun x => dose_id x <> dose_id new)
            (doses (loaded w) ++ undone_doses (loaded w))) /\
  (fromtimestamp_ok in_range ts = false -> loaded w' = loaded w).
Proof.
  cbv zeta.
  pose proof (add_dose_accepted libm_pow clock strftime in_range amt off w
                (ltb_not_leb _ _ Hpos) (leb_not_ltb _ _ Hmax)) as H.
  cbv zeta in H. destruct (dose_time clock w off) as [ts k].
  rewrite H. cbn [fst].
  destruct (fromtimestamp_ok in_range ts); cbn [snd].
  - rewrite loaded_mk.
    unfold ids_below in *. cbn [doses undone_doses next_id].
    split; [|split; [intros _|discriminate]].
    + rewrite <- app_assoc. apply Forall_app.
      apply Forall_app in Hinv. destruct Hinv as [H1 H2]. split.
      * eapply Forall_impl; [|exact H1].
        intros x. cbv beta. destruct (dose_id x); [lia|auto].
      * simpl. constructor; [simpl; lia|].
        eapply Forall_impl; [|exact H2].
        intros x. cbv beta. destruct (dose_id x); [lia|auto].
    + eexists. split; [reflexivity|]. split; [reflexivity|].
      eapply Forall_impl; [|exact Hinv]. simpl.
      intros x. cbv beta. destruct (dose_id x); [|discriminate].
      intros Hlt Heq. injection Heq as ->. lia.
  - assert (E : loaded (mkWorld (data_file w) (cache_file w)
                          (timeseries_file w) (ticks w + k) (stdout w))
                = loaded w) by (now apply loaded_ext).
    rewrite E. split; [exact Hinv|]. split; [discriminate|reflexivity].
Qed.

Lemma ids_below_perm d d' :
  Permutation (doses d' ++ undone_doses d') (doses d ++ undone_doses d) ->
  next_id d' = next_id d -> ids_below d -> ids_below d'.
Proof.
  unfold ids_below. intros P N H. rewrite N.
  eapply Permutation_Forall; [symmetry; exact P|exact H].
Qed.

(** X10: the operations that take doses out or move them keep every id
    below [next_id]: [handle_undo], [handle_redo], [clean_old_doses] and
    [undo_last] never raise an id or lower [next_id]. *)
Theorem removals_keep_ids_below (w : world) (Hinv : ids_below (loaded w)) :
  ids_below (loaded (snd (handle_undo libm_pow clock w))) /\
  ids_below (loaded (snd (handle_redo libm_pow clock w))) /\
  ids_below (loaded (snd (clean_old_doses clock w))) /\
  ids_below (loaded (snd (undo_last w))).
Proof.
  split; [|split; [|split]].
  - destruct (handle_undo_store w) as [[_ ->]|(l & x & E & ->)];
      [exact Hinv|].
    eapply ids_below_perm; [| |exact Hinv]; [|reflexivity].
    rewrite E. simpl. rewrite <- !app_assoc.
    apply Permutation_app_head, Permutation_app_comm.
  - destruct (handle_redo_store w) as [[_ ->]|(u & x & E & ->)];
      [exact Hinv|].
    eapply ids_below_perm; [| |exact Hinv]; [|reflexivity].
    rewrite E. simpl. rewrite <- !app_assoc.
    apply Permutation_app_head, Permutation_app_comm.
  - pose proof (clean_old_doses_effects clock w) as H. cbv zeta in H.
    rewrite H. cbn [snd]. rewrite loaded_mk.
    unfold ids_below in *. cbn [doses undone_doses next_id].
    apply Forall_app in Hinv. destruct Hinv as [H1 H2].
    apply Forall_app. split; [|exact H2].
    eapply incl_Forall; [|exact H1]. apply incl_filter.
  - unfold undo_last. unfold bind at 1. rewrite load_data_loaded.
    destruct (doses (loaded w)) as [|y l'] eqn:E.
    + unfold ret. cbn [snd]. exact Hinv.
    + rewrite <- E. unfold save_data, bind, write_data_file, ret.
      cbn [snd]. rewrite loaded_mk.
      unfold ids_below in *. cbn [doses undone_doses next_id].
      apply Forall_app in Hinv. destruct Hinv as [H1 H2].
      apply Forall_app. split; [|exact H2].
      eapply incl_Forall; [|exact H1].
      intros z Hz. assert (Hne : doses (loaded w) <> [])
        by (rewrite E; discriminate).
      destruct (exists_last Hne) as (l & x & El).
      rewrite El, removelast_last in Hz. rewrite El.
      apply in_or_app. now left.
Qed.

(** [undo_last] on an empty store returns nothing and changes nothing;
    otherwise it returns the last dose and writes the store without it,
    the undone doses as they were. *)
Lemma undo_last_drops (w : world) :
  (doses (loaded w) = [] -> undo_last w = (Ok None, w)) /\
  (forall l x, doses (loaded w) = l ++ [x] ->
     undo_last w =
       (Ok (Some x),
        mkWorld (Some (mkStored l (Some (undone_doses (loaded w)))
                                (Some (next_id (loaded w)))))
                (cache_file w) (timeseries_file w) (ticks w) (stdout w))).
Proof.
  split.
  - intros E. unfold undo_last. unfold bind at 1.
    rewrite load_data_loaded, E. reflexivity.
  - intros l x E. unfold undo_last. unfold bind at 1.
    rewrite load_data_loaded, E, last_last, removelast_last.
    destruct l; reflexivity.
Qed.

(** X11: a dose taken out by [undo_last] is gone for good.  [undo_last]
    returns the last dose and writes the store without it, but, unlike
    [handle_undo], does not put it among the undone doses: a
    [handle_redo] right after it, with no dose undone before, finds
    nothing to redo and leaves the store one dose short. *)
Theorem undo_last_is_final (w : world) (l : list dose) (x : dose)
    (Hd : doses (loaded w) = l ++ [x])
    (Hu : undone_doses (loaded w) = []) :
  let w1 := snd (undo_last w) in
  fst (undo_last w) = Ok (Some x) /\
  loaded w1 = mkData l [] (next_id (loaded w)) /\
  handle_redo libm_pow clock w1 =
    (Ok tt, mkWorld (data_file w1) (cache_file w1) (timeseries_file w1)
                    (ticks w1) (stdout w1 ++ [NoDosesToRedo])) /\
  loaded (snd (handle_redo libm_pow clock w1))
    = mkData l [] (next_id (loaded w)).
Proof.
  cbv zeta. destruct (undo_last_drops w) as [_ H].
  rewrite (H l x Hd), Hu. cbn [fst snd]. rewrite loaded_mk.
  split; [reflexivity|]. split; [reflexivity|].
  destruct (undo_redo_effects libm_pow clock
              (mkWorld (Some (mkStored l (Some []) (Some (next_id (loaded w)))))
                       (cache_file w) (timeseries_file w) (ticks w)
                       (stdout w))) as (_ & _ & _ & R).
  rewrite (R eq_refl). split; reflexivity.
Qed.

(** The sampling loop changes no file, whether it returns or raises, and
    every level it returns is a level of the doses it was given. *)
Lemma sample_frame ds start secs : forall n i w,
  exists r w',
    sample libm_pow clock strftime in_range ds start secs i n w = (r, w') /\
    same_files w w' /\
    forall series, r = Ok series ->
      Forall (fun p => exists t, p_level p = level_at libm_pow ds t) series.
Proof.
  induction n as [|n IH]; intros i w; simpl.
  - exists (Ok []), w. unfold ret, same_files.
    split; [reflexivity|]. split; [auto|].
    intros series [= <-]. constructor.
  - unfold bind at 1.
    destruct (calculate_current_level_cases libm_pow clock ds
                (start + PyFloat.of_int (i * secs)) w) as (w1 & E1 & F1).
    rewrite E1. unfold bind at 1, format_time.
    destruct (fromtimestamp_ok in_range (start + PyFloat.of_int (i * secs))).
    + unfold ret at 1. unfold bind at 1.
      destruct (IH (i + 1)%Z w1) as (r & w2 & E2 & F2 & P2).
      rewrite E2. destruct r as [rest|e].
      * unfold ret. eexists; eexists. split; [reflexivity|].
        split; [exact (same_files_trans _ _ _ F1 F2)|].
        intros series [= <-]. constructor; [|now apply P2].
        cbn [p_level]. eauto.
      * eexists; eexists. split; [reflexivity|].
        split; [exact (same_files_trans _ _ _ F1 F2)|]. discriminate.
    + unfold raise. eexists; eexists. split; [reflexivity|].
      split; [exact F1|]. discriminate.
Qed.

Lemma generate_timeseries_files (start_time end_time : option float)
    (interval_minutes : Z) (w : world) :
  let r := generate_timeseries libm_pow clock strftime in_range start_time
             end_time interval_minutes w in
  data_file (snd r) = data_file w /\
  cache_file (snd r) = cache_file w /\
  timeseries_file (snd r) = timeseries_file w.
Proof.
  cbv zeta.
  destruct (generate_timeseries libm_pow clock strftime in_range start_time
              end_time interval_minutes w) as [r w'] eqn:E.
  cbn [snd]. revert E. unfold generate_timeseries.
  unfold bind at 1. rewrite load_data_loaded.
  unfold bind at 1, time_time at 1.
  destruct (interval_minutes * 60 =? 0)%Z.
  { unfold raise. intros [= <- <-]. cbn. auto. }
  match goal with |- context [PyFloat.to_int ?q] =>
    destruct (PyFloat.to_int q) as [[]|q'] end;
    try (unfold raise; intros [= <- <-]; cbn; auto).
  destruct (10000 <? q' + 1)%Z.
  - unfold bind at 1, print at 1.
    match goal with |- context [sample _ _ _ _ ?ds ?s ?secs ?i ?n ?W] =>
      destruct (sample_frame ds s secs n i W)
        as (r0 & w0 & E & (F1 & F2 & F3 & F4) & _) end.
    rewrite E. intros [= <- <-]. cbn in *. auto.
  - unfold bind at 1, ret at 1.
    match goal with |- context [sample _ _ _ _ ?ds ?s ?secs ?i ?n ?W] =>
      destruct (sample_frame ds s secs n i W)
        as (r0 & w0 & E & (F1 & F2 & F3 & F4) & _) end.
    rewrite E. intros [= <- <-]. cbn in *. auto.
Qed.

(** X12: [generate_timeseries] only reads: whatever its arguments, and
    whether it returns or raises, the store file, the cache file and the
    time-series file are as before.  With an interval of zero minutes it
    raises [ZeroDivisionError] and prints nothing. *)
Theorem generate_timeseries_reads_only (start_time end_time : option float)
    (interval_minutes : Z) (w : world) :
  let r := generate_timeseries libm_pow clock strftime in_range start_time
             end_time interval_minutes w in
  data_file (snd r) = data_file w /\
  cache_file (snd r) = cache_file w /\
  timeseries_file (snd r) = timeseries_file w /\
  (interval_minutes = 0%Z ->
   fst r = Raise ZeroDivisionError /\ stdout (snd r) = stdout w).
Proof.
  cbv zeta.
  destruct (generate_timeseries_files start_time end_time interval_minutes w)
    as (D & C & T).
  split; [exact D|]. split; [exact C|]. split; [exact T|].
  intros ->. unfold generate_timeseries, bind.
  rewrite load_data_loaded. split; reflexivity.
Qed.

(** X13: [update_timeseries] leaves the store file and the cache file as
    they are; when the series is computed, the time-series file holds
    exactly the series returned, and when an error is raised the
    time-series file is not written. *)
Theorem update_timeseries_writes_series (w : world) :
  let r := update_timeseries libm_pow clock strftime in_range w in
  data_file (snd r) = data_file w /\
  cache_file (snd r) = cache_file w /\
  match fst r with
  | Ok series =>
      timeseries_file (snd r) = Some series /\
      fst (generate_timeseries libm_pow clock strftime in_range None None 15 w)
        = Ok series
  | Raise _ => timeseries_file (snd r) = timeseries_file w
  end.
Proof.
  cbv zeta. unfold update_timeseries, bind.
  destruct (generate_timeseries_files None None 15 w) as (D & C & T).
  destruct (generate_timeseries libm_pow clock strftime in_range None None
              15 w) as [[series|e] w'] eqn:E; cbn in *; auto.
Qed.

(** X14: on a store without doses every sample of [generate_timeseries]
    has level 0, whatever the window and the interval. *)
Theorem empty_store_flat_series (start_time end_time : option float)
    (interval_minutes : Z) (w : world) (series : list point) (w' : world)
    (Hempty : doses (loaded w) = [])
    (Hrun : generate_timeseries libm_pow clock strftime in_range start_time
              end_time interval_minutes w = (Ok series, w')) :
  Forall (fun p => p_level p = 0) series.
Proof.
  revert Hrun. unfold generate_timeseries.
  unfold bind at 1. rewrite load_data_loaded, Hempty.
  unfold bind at 1, time_time at 1.
  destruct (interval_minutes * 60 =? 0)%Z; [discriminate|].
  match goal with |- context [PyFloat.to_int ?q] =>
    destruct (PyFloat.to_int q) as [[]|q'] end; try discriminate.
  assert (Z : forall p, (exists t, p_level p = level_at libm_pow [] t) ->
                        p_level p = 0).
  { intros p [t ->]. reflexivity. }
  destruct (10000 <? q' + 1)%Z.
  - unfold bind at 1, print at 1.
    match goal with |- context [sample _ _ _ _ ?ds ?s ?secs ?i ?n ?W] =>
      destruct (sample_frame ds s secs n i W) as (r0 & w0 & E & _ & P) end.
    rewrite E. intros [= Hr _].
    eapply Forall_impl; [exact Z|]. now apply P.
  - unfold bind at 1, ret at 1.
    match goal with |- context [sample _ _ _ _ ?ds ?s ?secs ?i ?n ?W] =>
      destruct (sample_frame ds s secs n i W) as (r0 & w0 & E & _ & P) end.
    rewrite E. intros [= Hr _].
    eapply Forall_impl; [exact Z|]. now apply P.
Qed.

(** X15: what [handle_undo] and [handle_redo] print when a dose is moved:
    the last doses, five at most and none of them if no dose is left, then
    the dose that was moved, then the level of the doses as they are after
    the move, at the clock. *)
Theorem undo_redo_report (w : world) :
  let shown ds :=
    match ds with
    | [] => []
    | _ => [LastDoses (map (fun x => (datetime x, amount x))
                           (slice_from_neg ds 5))]
    end in
  (forall l x, doses (loaded w) = l ++ [x] ->
     stdout (snd (handle_undo libm_pow clock w)) =
       stdout w ++ shown l ++
       [RemovedDose (amount x) (datetime x);
        CurrentLevel (level_at libm_pow l (clock (ticks w)))]) /\
  (forall u x, undone_doses (loaded w) = u ++ [x] ->
     stdout (snd (handle_redo libm_pow clock w)) =
       stdout w ++ shown (doses (loaded w) ++ [x]) ++
       [RestoredDose (amount x) (datetime x);
        CurrentLevel (level_at libm_pow (doses (loaded w) ++ [x])
                               (clock (ticks w)))]).
Proof.
  cbv zeta. split.
  - intros l x E. unfold handle_undo. unfold bind at 1.
    rewrite load_data_loaded, E, last_last, removelast_last.
    destruct l; run; rewrite <- ?app_assoc; reflexivity.
  - intros u x E. unfold handle_redo. unfold bind at 1.
    rewrite load_data_loaded, E, last_last, removelast_last.
    destruct u; destruct (doses (loaded w)); run;
      rewrite <- ?app_assoc; reflexivity.
Qed.

End Coverage.

Section PlannerFacts.

Local Open Scope float_scope.

Variable libm_pow : float -> float -> float.
Variable clock : nat -> float.
Variable local_now : nat -> local_time.
Variable local_timestamp : Z -> Z -> Z -> float.
Variable in_range : float -> bool.
Variable strftime_minutes : float -> string.


End PlannerFacts.

(** ** The further properties at concrete inputs *)

Local Open Scope float_scope.

(** X2 at a concrete input: [nan] entered on a first run. *)
Lemma add_dose_accepts_nan_witness :
  is_nan nan = true /\
  fromtimestamp_ok ex_in_range (fst (dose_time ex_clock fresh_world 0))
    = true /\
  exists level w',
    add_dose ex_pow ex_clock ex_strftime ex_in_range nan 0 fresh_world
      = (Ok level, w') /\
    data_file w' =
      Some (mkStored [mkDose (Some 1%Z) 1700000000 nan EmptyString]
                     (Some []) (Some 2%Z)).
Proof.
  split; [reflexivity|]. split; [reflexivity|].
  exact (add_dose_accepts_nan ex_pow ex_clock ex_strftime ex_in_range nan 0
           fresh_world eq_refl eq_refl).
Defined.

(** X3 at a concrete input: a dose of 100 and one that is not a number. *)
Lemma nan_amount_poisons_level_witness :
  In nan_dose [morning; nan_dose] /\
  is_nan (amount nan_dose) = true /\
  (timestamp nan_dose <=? 1700000000) = true /\
  is_nan (level_at ex_pow [morning; nan_dose] 1700000000) = true.
Proof.
  assert (H : In nan_dose [morning; nan_dose]) by (right; left; reflexivity).
  split; [exact H|]. split; [reflexivity|]. split; [reflexivity|].
  exact (nan_amount_poisons_level ex_pow [morning; nan_dose] 1700000000
           nan_dose H eq_refl eq_refl).
Defined.

(** X4 at a concrete input: the dose stamped 5000 seconds after the query
    time does not count. *)
Lemma level_ignores_later_doses_witness :
  timestamps_ordered [later; morning; noon] /\
  level_at ex_pow [later; morning; noon] 1700000000
  = level_at ex_pow [morning; noon] 1700000000.
Proof.
  assert (H : timestamps_ordered [later; morning; noon])
    by (repeat constructor).
  split; [exact H|].
  exact (level_ignores_later_doses ex_pow [later; morning; noon] 1700000000
           H).
Defined.

(** X5 at a concrete input: the old store file of the examples. *)
Lemma load_data_numbers_doses_witness :
  data_file legacy_world = Some legacy_file /\
  st_next_id legacy_file = None /\
  map dose_id (doses (loaded legacy_world))
    = [Some 1%Z; Some 7%Z; Some 2%Z] /\
  nth_error (doses (loaded legacy_world)) 2
    = Some (mkDose (Some 2%Z) 1699996400 40 EmptyString) /\
  next_id (loaded legacy_world) = 3%Z /\
  undone_doses (loaded legacy_world) = [].
Proof.
  split; [reflexivity|]. split; [reflexivity|].
  destruct (load_data_numbers_doses legacy_world legacy_file eq_refl eq_refl)
    as (_ & N & X & U).
  split; [reflexivity|]. split; [exact (N 2%nat _ eq_refl)|].
  split; [exact X|exact U].
Defined.

(** X6 at a concrete input: a limit of one on a store of two doses, the
    later one entered first. *)
Lemma show_history_last_witness :
  let w := ex_world [noon; morning] [] 3 None in
  (0 < 1)%Z /\
  timestamps_ordered [noon; morning] /\
  Forall (fun d => pow_overflows ex_pow (hours_ago (ex_clock 0) d / 6) = false)
         [noon; morning] /\
  exists older shown w',
    show_history ex_pow ex_clock 1 w
      = (Ok (map (entry_of ex_pow (ex_clock 0)) shown), w') /\
    same_files w w' /\
    Permutation (older ++ shown) [noon; morning] /\
    ascending timestamp (older ++ shown) /\
    List.length shown = 1%nat.
Proof.
  cbv zeta. split; [reflexivity|].
  assert (N : timestamps_ordered [noon; morning]) by (repeat constructor).
  assert (P : Forall (fun d => pow_overflows ex_pow
                                 (hours_ago (ex_clock 0) d / 6) = false)
                     [noon; morning]) by (repeat constructor).
  split; [exact N|]. split; [exact P|].
  destruct (show_history_last ex_pow ex_clock 1
              (ex_world [noon; morning] [] 3 None) eq_refl N P)
    as (older & shown & w' & H1 & H2 & H3 & H4 & _ & H6).
  exists older, shown, w'.
  split; [exact H1|]. split; [exact H2|]. split; [exact H3|].
  split; [exact H4|exact H6].
Defined.

(** Where X6 stops: a dose stamped 100000000 seconds, some three years,
    after the clock has [hours_ago / 6] below -1023, and the history
    cannot be shown at all. *)
Example show_history_overflow_example :
  fst (show_history ex_pow ex_clock 5
         (ex_world [morning; ex_dose 2 1800000000 100] [] 3 None))
  = Raise PowOverflow.
Proof. vm_compute. reflexivity. Qed.

(** X8 at a concrete input: one dose in the store, one undone. *)
Lemma redo_then_undo_witness :
  let w := ex_world [morning] [noon] 3 None in
  undone_doses (loaded w) <> [] /\
  loaded (snd (handle_undo ex_pow ex_clock
                 (snd (handle_redo ex_pow ex_clock w)))) = loaded w.
Proof.
  cbv zeta.
  assert (H : undone_doses (loaded (ex_world [morning] [noon] 3 None)) <> [])
    by (simpl; discriminate).
  split; [exact H|].
  exact (redo_then_undo ex_pow ex_clock (ex_world [morning] [noon] 3 None) H).
Defined.

Lemma ex_ids_below : ids_below (loaded (ex_world [morning] [noon] 3 None)).
Proof. repeat constructor. Defined.

(** X9 at a concrete input: 50 mg added to a store with ids 1 and 2 and
    the next id 3, at once and with an offset of 1e10 minutes. *)
Lemma add_dose_fresh_id_witness :
  let w := ex_world [morning] [noon] 3 None in
  let w' := snd (add_dose ex_pow ex_clock ex_strftime ex_in_range 50 0 w) in
  let w'' :=
    snd (add_dose ex_pow ex_clock ex_strftime ex_in_range 50 1e10 w) in
  (0 <? 50) = true /\ (50 <=? 1000) = true /\ ids_below (loaded w) /\
  ids_below (loaded w') /\
  (exists new,
     doses (loaded w') = [morning; new] /\
     dose_id new = Some 3%Z /\
     Forall (fun x => dose_id x <> dose_id new) [morning; noon]) /\
  loaded w'' = loaded w.
Proof.
  cbv zeta. split; [reflexivity|]. split; [reflexivity|].
  split; [exact ex_ids_below|].
  destruct (add_dose_fresh_id ex_pow ex_clock ex_strftime ex_in_range 50 0
              (ex_world [morning] [noon] 3 None) eq_refl eq_refl ex_ids_below)
    as (H1 & H2 & _).
  destruct (add_dose_fresh_id ex_pow ex_clock ex_strftime ex_in_range 50 1e10
              (ex_world [morning] [noon] 3 None) eq_refl eq_refl ex_ids_below)
    as (_ & _ & H3).
  split; [exact H1|]. split; [exact (H2 eq_refl)|exact (H3 eq_refl)].
Defined.

(** X10 at a concrete input: the same store. *)
Lemma removals_keep_ids_below_witness :
  let w := ex_world [morning] [noon] 3 None in
  ids_below (loaded w) /\
  ids_below (loaded (snd (handle_undo ex_pow ex_clock w))) /\
  ids_below (loaded (snd (handle_redo ex_pow ex_clock w))) /\
  ids_below (loaded (snd (clean_old_doses ex_clock w))) /\
  ids_below (loaded (snd (undo_last w))).
Proof.
  cbv zeta. split; [exact ex_ids_below|].
  exact (removals_keep_ids_below ex_pow ex_clock
           (ex_world [morning] [noon] 3 None) ex_ids_below).
Defined.

(** X14 at a concrete input: a first run sampled every twelve hours. *)
Lemma empty_store_flat_series_witness :
  let series := [mkPoint 1699913600 EmptyString 0;
                 mkPoint 1699956800 EmptyString 0;
                 mkPoint 1700000000 EmptyString 0] in
  doses (loaded fresh_world) = [] /\
  generate_timeseries ex_pow ex_clock ex_strftime ex_in_range None None 720
    fresh_world = (Ok series, mkWorld None None None 1 []) /\
  Forall (fun p => p_level p = 0) series.
Proof.
  cbv zeta.
  assert (R : generate_timeseries ex_pow ex_clock ex_strftime ex_in_range
                None None 720 fresh_world
              = (Ok [mkPoint 1699913600 EmptyString 0;
                     mkPoint 1699956800 EmptyString 0;
                     mkPoint 1700000000 EmptyString 0],
                 mkWorld None None None 1 []))
    by (vm_compute; reflexivity).
  split; [reflexivity|]. split; [exact R|].
  exact (empty_store_flat_series ex_pow ex_clock ex_strftime ex_in_range
           None None 720 fresh_world _ _ eq_refl R).
Defined.


Section Coverage2.

Local Open Scope float_scope.

Variable libm_pow : float -> float -> float.
Variable clock : nat -> float.
Variable strftime : float -> string.
Variable in_range : float -> bool.

Lemma assign_ids_range ds : forall n,
  Forall (fun x => lacks_id x = true) ds ->
  Forall (fun x => match dose_id x with
                   | Some j => (n <= j < snd (assign_ids n ds))%Z
                   | None => False
                   end) (fst (assign_ids n ds)) /\
  (n <= snd (assign_ids n ds))%Z.
Proof.
  induction ds as [|y ds IH]; intros n H; simpl.
  - split; [constructor|lia].
  - inversion H as [|? ? Hy Hds]; subst.
    unfold lacks_id in Hy. destruct (dose_id y); [discriminate|].
    destruct (IH (n + 1)%Z Hds) as [F L].
    destruct (assign_ids (n + 1) ds) as [r m]. simpl in *.
    split; [|lia]. constructor; [simpl; lia|].
    eapply Forall_impl; [|exact F].
    intros x. cbv beta. destruct (dose_id x); [lia|auto].
Qed.

(** X17: a store file in which no dose, undone or not, has an id and that
    has no ['next_id'] comes out of [load_data] with every id below
    [next_id]. *)
Theorem load_data_numbers_below (w : world) (f : stored)
    (Hf : data_file w = Some f) (Hn : st_next_id f = None)
    (Hd : Forall (fun x => lacks_id x = true) (st_doses f))
    (Hu : Forall (fun x => lacks_id x = true)
                 (match st_undone_doses f with
                  | Some u => u
                  | None => []
                  end)) :
  ids_below (loaded w).
Proof.
  unfold ids_below, loaded, load_data. rewrite Hf, Hn.
  destruct (assign_ids_range (st_doses f) 1 Hd) as [F _].
  destruct (assign_ids 1 (st_doses f)) as [r m]. simpl in *.
  apply Forall_app. split.
  - eapply Forall_impl; [|exact F].
    intros x. cbv beta. destruct (dose_id x); [lia|auto].
  - eapply Forall_impl; [|exact Hu].
    intros x. unfold lacks_id. destruct (dose_id x); [discriminate|auto].
Qed.

(** X18: two doses with valid amounts and timestamps whose dates can be
    formed, added one after the other, end up last in the store, in the
    order they were added, with the ids [next_id] and [next_id + 1], and
    [next_id] has gone up by two. *)
Theorem add_dose_twice (a1 o1 a2 o2 : float) (w : world)
    (H1 : (0 <? a1) = true) (H1' : (a1 <=? 1000) = true)
    (H2 : (0 <? a2) = true) (H2' : (a2 <=? 1000) = true)
    (Ht1 : fromtimestamp_ok in_range (fst (dose_time clock w o1)) = true)
    (Ht2 : fromtimestamp_ok in_range
             (fst (dose_time clock
                     (snd (add_dose libm_pow clock strftime in_range a1 o1 w))
                     o2)) = true) :
  let w1 := snd (add_dose libm_pow clock strftime in_range a1 o1 w) in
  let w2 := snd (add_dose libm_pow clock strftime in_range a2 o2 w1) in
  exists d1 d2,
    doses (loaded w2) = doses (loaded w) ++ [d1; d2] /\
    dose_id d1 = Some (next_id (loaded w)) /\ amount d1 = a1 /\
    timestamp d1 = fst (dose_time clock w o1) /\
    dose_id d2 = Some (next_id (loaded w) + 1)%Z /\ amount d2 = a2 /\
    timestamp d2 = fst (dose_time clock w1 o2) /\
    undone_doses (loaded w2) = undone_doses (loaded w) /\
    next_id (loaded w2) = (next_id (loaded w) + 2)%Z.
Proof.
  cbv zeta. revert Ht2.
  pose proof (add_dose_accepted libm_pow clock strftime in_range a1 o1 w
                (ltb_not_leb _ _ H1) (leb_not_ltb _ _ H1')) as E1.
  cbv zeta in E1. destruct (dose_time clock w o1) as [t1 k1].
  cbn [fst] in Ht1. rewrite Ht1 in E1.
  rewrite E1. cbn [snd fst].
  match goal with |- context [add_dose _ _ _ _ _ _ ?W] =>
    pose proof (add_dose_accepted libm_pow clock strftime in_range a2 o2 W
                  (ltb_not_leb _ _ H2) (leb_not_ltb _ _ H2')) as E2;
    cbv zeta in E2; destruct (dose_time clock W o2) as [t2 k2] end.
  cbn [fst]. intros Ht2. rewrite Ht2 in E2.
  rewrite E2. cbn [snd]. rewrite !loaded_mk. cbn [doses undone_doses next_id].
  eexists; eexists. rewrite <- app_assoc.
  split; [reflexivity|]. cbn. repeat split. lia.
Qed.

Lemma handle_redo_loaded (w w' : world) :
  loaded w = loaded w' ->
  loaded (snd (handle_redo libm_pow clock w))
  = loaded (snd (handle_redo libm_pow clock w')).
Proof.
  intros E.
  destruct (handle_redo_store libm_pow clock w)
    as [[U ->]|(u & x & U & ->)];
  destruct (handle_redo_store libm_pow clock w')
    as [[U' ->]|(u' & x' & U' & ->)]; auto.
  - rewrite <- E, U in U'. now destruct u'.
  - rewrite E, U' in U. now destruct u.
  - rewrite E, U' in U. apply app_inj_tail in U. destruct U as [<- <-].
    now rewrite E.
Qed.

Lemma undo_times_succ k w :
  undo_times libm_pow clock (S k) w
  = undo_times libm_pow clock k (snd (handle_undo libm_pow clock w)).
Proof. unfold undo_times. now rewrite Nat.iter_succ_r. Qed.

(** X19: undo and redo work as a stack: [k] undos followed by [k] redos,
    for [k] up to the number of doses, give back the doses in their
    order, the undone doses and [next_id]. *)
Theorem undo_redo_stack (k : nat) : forall (w : world),
  (k <= List.length (doses (loaded w)))%nat ->
  loaded (redo_times libm_pow clock k (undo_times libm_pow clock k w))
  = loaded w.
Proof.
  induction k as [|k IH]; intros w Hk; [reflexivity|].
  rewrite undo_times_succ. unfold redo_times. rewrite Nat.iter_succ.
  fold (redo_times libm_pow clock k
          (undo_times libm_pow clock k
             (snd (handle_undo libm_pow clock w)))).
  destruct (handle_undo_store libm_pow clock w)
    as [[E _]|(l & x & E & R)].
  - rewrite E in Hk. simpl in Hk. lia.
  - rewrite (handle_redo_loaded _ (snd (handle_undo libm_pow clock w))).
    + destruct (handle_redo_store libm_pow clock
                  (snd (handle_undo libm_pow clock w)))
        as [[U _]|(u & y & U & ->)].
      * rewrite R in U. simpl in U. now destruct (undone_doses (loaded w)).
      * rewrite R in *. simpl in *. apply app_inj_tail in U.
        destruct U as [<- <-]. rewrite <- E. now destruct (loaded w).
    + apply IH. rewrite R. simpl. rewrite E, length_app in Hk.
      simpl in Hk. lia.
Qed.

End Coverage2.

Local Open Scope float_scope.

(** X17 at a concrete input: an old store file of two doses. *)
Lemma load_data_numbers_below_witness :
  let f := mkStored [mkDose None 1699978400 100 EmptyString;
                     mkDose None 1699989200 80 EmptyString] None None in
  let w := mkWorld (Some f) None None 0 [] in
  Forall (fun x => lacks_id x = true) (st_doses f) /\
  ids_below (loaded w) /\
  map dose_id (doses (loaded w)) = [Some 1%Z; Some 2%Z] /\
  next_id (loaded w) = 3%Z.
Proof.
  cbv zeta.
  assert (H : Forall (fun x => lacks_id x = true)
                [mkDose None 1699978400 100 EmptyString;
                 mkDose None 1699989200 80 EmptyString])
    by (repeat constructor).
  split; [exact H|]. split; [|split; reflexivity].
  exact (load_data_numbers_below
           (mkWorld (Some (mkStored _ None None)) None None 0 [])
           (mkStored _ None None) eq_refl eq_refl H (Forall_nil _)).
Defined.

(** X18 at a concrete input: 100 mg and then 80 mg on a first run. *)
Lemma add_dose_twice_witness :
  let w1 := snd (add_dose ex_pow ex_clock ex_strftime ex_in_range 100 0
                   fresh_world) in
  let w2 := snd (add_dose ex_pow ex_clock ex_strftime ex_in_range 80 0 w1) in
  (0 <? 100) = true /\ (100 <=? 1000) = true /\
  (0 <? 80) = true /\ (80 <=? 1000) = true /\
  fromtimestamp_ok ex_in_range (fst (dose_time ex_clock fresh_world 0))
    = true /\
  fromtimestamp_ok ex_in_range (fst (dose_time ex_clock w1 0)) = true /\
  exists d1 d2,
    doses (loaded w2) = [d1; d2] /\
    dose_id d1 = Some 1%Z /\ amount d1 = 100 /\ timestamp d1 = 1700000000 /\
    dose_id d2 = Some 2%Z /\ amount d2 = 80 /\ timestamp d2 = 1700000003 /\
    undone_doses (loaded w2) = [] /\
    next_id (loaded w2) = 3%Z.
Proof.
  cbv zeta. repeat (split; [reflexivity|]).
  exact (add_dose_twice ex_pow ex_clock ex_strftime ex_in_range 100 0 80 0
           fresh_world eq_refl eq_refl eq_refl eq_refl eq_refl eq_refl).
Defined.

(** X19 at a concrete input: two undos and two redos on three doses. *)
Lemma undo_redo_stack_witness :
  let w := ex_world [morning; noon; later] [] 4 None in
  (2 <= List.length (doses (loaded w)))%nat /\
  loaded (redo_times ex_pow ex_clock 2 (undo_times ex_pow ex_clock 2 w))
  = loaded w.
Proof.
  cbv zeta.
  assert (H : (2 <= List.length
                      (doses (loaded (ex_world [morning; noon; later] []
                                        4 None))))%nat)
    by (simpl; lia).
  split; [exact H|].
  exact (undo_redo_stack ex_pow ex_clock 2
           (ex_world [morning; noon; later] [] 4 None) H).
Defined.

(** X11 at a concrete input: the only dose of a store is taken out. *)
Lemma undo_last_is_final_witness :
  let w := ex_world [morning] [] 2 None in
  doses (loaded w) = [] ++ [morning] /\
  undone_doses (loaded w) = [] /\
  fst (undo_last w) = Ok (Some morning) /\
  loaded (snd (handle_redo ex_pow ex_clock (snd (undo_last w))))
    = mkData [] [] 2.
Proof.
  cbv zeta. split; [reflexivity|]. split; [reflexivity|].
  destruct (undo_last_is_final ex_pow ex_clock (ex_world [morning] [] 2 None)
              [] morning eq_refl eq_refl) as (H1 & _ & _ & H2).
  split; [exact H1|exact H2].
Defined.
